(** * Algo_Trade_v1: pre-pump detector and analyzer glue

    A shallow embedding of [pre_pump_detector.py] and [analyzer_test.py].
    The classes under [libs/] (data fetcher, technical, volume-profile,
    fundamental, signal and ranking analyzers) are collaborators of these two
    files; the orchestration code takes them as record-of-methods values, and
    the numeric engines are modelled separately further down.

    Floating-point columns are modelled as rationals ([Q]); "equal" on scores
    and prices is [Qeq] ([==]).  A pandas DataFrame is the list of its rows in
    index order. *)

From Stdlib Require Import List String ZArith QArith Qminmax Qabs Lqa Lia Bool Arith.
From Stdlib Require Import Permutation Sorted.
Import ListNotations.

Local Open Scope string_scope.
Local Open Scope Q_scope.
Local Open Scope list_scope.

(** ** Data model *)

(** A value held in a pattern column: a boolean, a number, NaN or [None]. *)
Inductive Cell : Type :=
| CellBool (b : bool)
| CellNum (q : Q)
| CellNaN
| CellNone.

(** The truth value Python gives a cell in a condition: NaN and every
    non-zero number are true, zero and [None] are false. *)
Definition truthy (c : Cell) : bool :=
  match c with
  | CellBool b => b
  | CellNum q => negb (Qeq_bool q 0)
  | CellNaN => true
  | CellNone => false
  end.

(** One row of the analysed DataFrame: the OHLCV candle together with the
    indicator, pattern and signal columns that the analysis stages add.
    Indicator cells are [None] while still in their warm-up window; a pattern
    cell is [None] when the column is absent from the row. *)
Record Row : Type := mkRow {
  timestamp : Z;
  open : Q;
  high : Q;
  low : Q;
  close : Q;
  volume : Q;
  trend_strength : option Q;
  rsi : option Q;
  macd : option Q;
  macd_signal : option Q;
  bb_upper : option Q;
  bb_lower : option Q;
  atr : option Q;
  hammer : option Cell;
  morning_star : option Cell;
  engulfing : option Cell;
  doji : option Cell;
  signal_strength : Q;
  pre_pump_signal : bool
}.

Definition DataFrame : Type := list Row.

(** The [scores] entry of a ranking analysis. *)
Record Scores : Type := mkScores {
  total_score : Q;
  component_scores : list (string * Q)
}.

(** The dict returned by [PumpRankingAnalyzer.analyze_symbol]; [main] later
    stores the symbol under the key ['symbol']. *)
Record Ranking : Type := mkRanking {
  symbol : option string;
  scores : Scores
}.

(** A row of [rankings_df]: the ranking dict plus the derived
    ['total_score'] column. *)
Record RankingRow : Type := mkRankingRow {
  rr_ranking : Ranking;
  rr_total_score : Q
}.

Definition rr_symbol (r : RankingRow) : option string := symbol (rr_ranking r).

(** ** Collaborators (the objects held by [PrePumpDetector]) *)

Record DataFetcher : Type := mkDataFetcher {
  get_historical_data : string -> string -> option DataFrame;
  get_all_usdt_pairs : list string
}.

Record SignalAnalyzer : Type := mkSignalAnalyzer {
  analyze_data : DataFrame -> DataFrame;
  detect_signals : DataFrame -> DataFrame
}.

(** The batch loop tests [ranking is not None], so the ranking analysis is
    an optional value.  Every call is taken to return a dict of its own (the
    loop writes the symbol into it), and the collaborators are functions of
    their arguments. *)
Record PumpRankingAnalyzer : Type := mkPumpRankingAnalyzer {
  ranking_analyze_symbol : DataFrame -> option Ranking
}.

Record PrePumpDetector : Type := mkPrePumpDetector {
  data_fetcher : DataFetcher;
  signal_analyzer : SignalAnalyzer;
  ranking_analyzer : PumpRankingAnalyzer
}.

(** ** A call log

    [analyze_symbol] is written in a small logging monad so that statements
    of the form "stage X is not invoked" can be made about it. *)
Inductive Call : Type :=
| CallFetch (sym timeframe : string)
| CallAnalyzeData
| CallDetectSignals
| CallRanking.

Definition Logged (A : Type) : Type := (A * list Call)%type.

Definition ret {A : Type} (a : A) : Logged A := (a, []).

Definition bind {A B : Type} (m : Logged A) (k : A -> Logged B) : Logged B :=
  let '(a, l1) := m in
  let '(b, l2) := k a in
  (b, l1 ++ l2).

Definition invoke {A : Type} (c : Call) (a : A) : Logged A := (a, [c]).

Notation "x <- m ;; k" := (bind m (fun x => k))
  (at level 61, m at next level, right associativity).

Definition value {A : Type} (m : Logged A) : A := fst m.
Definition calls {A : Type} (m : Logged A) : list Call := snd m.

(** ** [PrePumpDetector.analyze_symbol] *)

Definition analyze_symbol_logged (self : PrePumpDetector) (sym timeframe : string)
  : Logged (option DataFrame * option Ranking) :=
  df <- invoke (CallFetch sym timeframe)
          (get_historical_data (data_fetcher self) sym timeframe) ;;
  match df with
  | None => ret (None, None)
  | Some df =>
      df <- invoke CallAnalyzeData (analyze_data (signal_analyzer self) df) ;;
      df <- invoke CallDetectSignals (detect_signals (signal_analyzer self) df) ;;
      ranking_analysis <- invoke CallRanking
                            (ranking_analyze_symbol (ranking_analyzer self) df) ;;
      ret (Some df, ranking_analysis)
  end.

Definition default_timeframe : string := "1h".

Definition analyze_symbol (self : PrePumpDetector) (sym : string)
  : option DataFrame * option Ranking :=
  value (analyze_symbol_logged self sym default_timeframe).

(** ** [main] of [pre_pump_detector.py] *)

(** [df.tail(n)]: the last [n] rows. *)
Definition tail {A : Type} (n : nat) (l : list A) : list A :=
  skipn (List.length l - n) l.

(** [df[df['pre_pump_signal']].tail(5)] *)
Definition latest_signals (df : DataFrame) : DataFrame :=
  tail 5 (filter pre_pump_signal df).

(** [ranking['symbol'] = symbol] *)
Definition set_symbol (sym : string) (r : Ranking) : Ranking :=
  {| symbol := Some sym; scores := scores r |}.

(** The two accumulators of the loop. *)
Record Acc : Type := mkAcc {
  all_signals : list (list (string * Row));
  all_rankings : list Ranking
}.

(** One iteration of the [for] loop over the symbols. *)
Definition loop_body (detector : PrePumpDetector) (acc : Acc) (sym : string) : Acc :=
  match analyze_symbol detector sym with
  | (Some df, Some ranking) =>
      let latest := latest_signals df in
      match latest with
      | [] => acc
      | _ :: _ =>
          {| all_signals := all_signals acc ++ [map (fun r => (sym, r)) latest];
             all_rankings := all_rankings acc ++ [set_symbol sym ranking] |}
      end
  | _ => acc
  end.

Definition run_loop (detector : PrePumpDetector) (symbols : list string) : Acc :=
  fold_left (loop_body detector) symbols {| all_signals := []; all_rankings := [] |}.

(** [rankings_df['total_score'] = rankings_df['scores'].apply(...)] *)
Definition add_total_score (r : Ranking) : RankingRow :=
  {| rr_ranking := r; rr_total_score := total_score (scores r) |}.

(** The sort behind [sort_values(by=..., ascending=False)]: from the key
    column alone it computes the order in which the row positions are taken.
    Whatever the sort kind, that order holds every position once and runs
    through the keys in descending order; how equal keys are ordered is left
    to the kind (the default kind gives no guarantee). *)
Class SortValues : Type := {
  indexer : list Q -> list nat;
  indexer_perm :
    forall keys, Permutation (indexer keys) (seq 0 (List.length keys));
  indexer_sorted :
    forall keys,
      StronglySorted (fun i j => nth j keys 0 <= nth i keys 0) (indexer keys)
}.

(** The rows at the given positions, in that order. *)
Definition take_rows {A : Type} (rows : list A) (positions : list nat) : list A :=
  flat_map (fun i => match nth_error rows i with
                     | Some r => [r]
                     | None => []
                     end) positions.

(** [rankings_df.sort_values(by='total_score', ascending=False)] *)
Definition sort_values_desc {kind : SortValues} (rows : list RankingRow)
  : list RankingRow :=
  take_rows rows (indexer (map rr_total_score rows)).

Record RunOutput : Type := mkRunOutput {
  combined_signals : list (string * Row);
  rankings_df : list RankingRow
}.

(** [main]: [None] when nothing is written (no symbols, or no signal
    detected for any symbol). *)
Definition main {kind : SortValues} (detector : PrePumpDetector) : option RunOutput :=
  let symbols := get_all_usdt_pairs (data_fetcher detector) in
  match symbols with
  | [] => None
  | _ :: _ =>
      let acc := run_loop detector symbols in
      match all_signals acc with
      | [] => None
      | _ :: _ =>
          Some {| combined_signals := List.concat (all_signals acc);
                  rankings_df := sort_values_desc (map add_total_score (all_rankings acc)) |}
      end
  end.

(** The ranking rows a run puts out (none when nothing is written). *)
Definition ranking_output {kind : SortValues} (detector : PrePumpDetector)
  : list RankingRow :=
  match main detector with
  | Some out => rankings_df out
  | None => []
  end.

(** ** [analyzer_test.py] *)

(** The dict appended to [signals] for one flagged row. *)
Record SignalEvent : Type := mkSignalEvent {
  ev_type : string;
  ev_strength : Q;
  ev_price : Q;
  ev_volume : Q;
  ev_patterns : list string
}.

(** [if row.get(pattern, False)] for the four pattern columns: the cell,
    or [False] when the column is missing, taken as a condition. *)
Definition row_get_pattern (row : Row) (pattern : string) : bool :=
  let cell :=
    if String.eqb pattern "hammer" then hammer row
    else if String.eqb pattern "morning_star" then morning_star row
    else if String.eqb pattern "engulfing" then engulfing row
    else if String.eqb pattern "doji" then doji row
    else None in
  match cell with
  | Some c => truthy c
  | None => false
  end.

Definition pattern_names : list string :=
  ["hammer"; "morning_star"; "engulfing"; "doji"].

Definition signal_of_row (row : Row) : SignalEvent :=
  {| ev_type := "Pre-Pump";
     ev_strength := signal_strength row;
     ev_price := close row;
     ev_volume := volume row;
     ev_patterns := filter (row_get_pattern row) pattern_names |}.

(** Lines 84-97: the list [signals] built from [signals_df]. *)
Definition collect_signals (signals_df : DataFrame) : list SignalEvent :=
  match signals_df with
  | [] => []
  | _ :: _ => map signal_of_row (filter pre_pump_signal signals_df)
  end.

Record FibonacciLevels : Type := mkFibonacciLevels {
  retracement : list (Q * Q);
  extension : list (Q * Q);
  position : Q
}.

Record VolumeAnalysis : Type := mkVolumeAnalysis {
  vpoc : Q;
  vah : Q;
  val : Q
}.

Record VolumeLevels : Type := mkVolumeLevels {
  poc : Q;
  value_area_high : Q;
  value_area_low : Q
}.

Record FundamentalMetrics : Type := mkFundamentalMetrics {
  market_cap : option Q;
  liquidity_24h : Q;
  volume_trend : option Q;
  fundamental_score : Q;
  volume_score : Q
}.

Record TechnicalAnalyzer : Type := mkTechnicalAnalyzer {
  ta_analyze_trend : DataFrame -> DataFrame;
  ta_analyze_momentum : DataFrame -> DataFrame;
  ta_analyze_volatility : DataFrame -> DataFrame;
  ta_detect_candle_patterns : DataFrame -> DataFrame;
  ta_get_fibonacci_levels : DataFrame -> option FibonacciLevels
}.

Record VolumeProfileAnalyzer : Type := mkVolumeProfileAnalyzer {
  vp_analyze : DataFrame -> VolumeAnalysis
}.

Record FundamentalAnalyzer : Type := mkFundamentalAnalyzer {
  fa_analyze_volume : DataFrame -> DataFrame;
  fa_analyze_trend : DataFrame -> DataFrame;
  fa_get_fundamental_metrics : DataFrame -> FundamentalMetrics
}.

Record Analyzers : Type := mkAnalyzers {
  an_data_fetcher : string -> string -> Z -> option DataFrame;
  an_technical : TechnicalAnalyzer;
  an_fundamental : FundamentalAnalyzer;
  an_volume : VolumeProfileAnalyzer;
  an_signal : SignalAnalyzer
}.

Record TechnicalIndicators : Type := mkTechnicalIndicators {
  ti_trend_strength : option Q;
  ti_rsi : option Q;
  ti_macd : option Q;
  ti_macd_signal : option Q;
  ti_bb_upper : option Q;
  ti_bb_lower : option Q;
  ti_atr : option Q
}.

Record Results : Type := mkResults {
  res_symbol : string;
  current_price : Q;
  technical_indicators : TechnicalIndicators;
  fibonacci_levels : option FibonacciLevels;
  volume_profile : VolumeLevels;
  fundamental_metrics : FundamentalMetrics;
  signals : list SignalEvent
}.

(** What a call does: it returns a value or raises. *)
Inductive Outcome (A : Type) : Type :=
| Returned (a : A)
| Raised.
Arguments Returned {A} a.
Arguments Raised {A}.

(** [f"{symbol[:-4]}/{symbol[-4:]}"] when the symbol has no slash. *)
Definition format_symbol (sym : string) : string :=
  match String.index 0 "/" sym with
  | Some _ => sym
  | None =>
      let n := String.length sym in
      String.append (String.substring 0 (n - 4) sym)
        (String.append "/" (String.substring (n - 4) 4 sym))
  end.

(** [df[...].iloc[-1]] on the last row. *)
Definition iloc_last (df : DataFrame) : option Row :=
  match rev df with
  | [] => None
  | r :: _ => Some r
  end.

(** The process environment, and the [int] builtin on its values ([None]
    where [int] raises). *)
Record Env : Type := mkEnv {
  getenv : string -> option string;
  int_of : string -> option Z
}.

(** [os.getenv(key, default)] *)
Definition getenv_default (env : Env) (key default : string) : string :=
  match getenv env key with
  | Some v => v
  | None => default
  end.

(** [timeframe or os.getenv('DEFAULT_TIMEFRAME', '1h')]: a missing or empty
    timeframe gives way to the environment. *)
Definition resolve_timeframe (env : Env) (timeframe : option string) : string :=
  match timeframe with
  | Some EmptyString | None => getenv_default env "DEFAULT_TIMEFRAME" "1h"
  | Some t => t
  end.

(** [limit or int(os.getenv('DEFAULT_LIMIT', '500'))]: a missing or zero
    limit gives way to the environment, whose value [int] may reject. *)
Definition resolve_limit (env : Env) (limit : option Z) : Outcome Z :=
  match limit with
  | Some 0%Z | None =>
      match int_of env (getenv_default env "DEFAULT_LIMIT" "500") with
      | Some l => Returned l
      | None => Raised
      end
  | Some l => Returned l
  end.

Definition analyze_coin (an : Analyzers) (env : Env) (sym : string)
  (timeframe : option string) (limit : option Z) : Outcome (option Results) :=
  let timeframe := resolve_timeframe env timeframe in
  match resolve_limit env limit with
  | Raised => Raised
  | Returned limit =>
      let sym := format_symbol sym in
      match an_data_fetcher an sym timeframe limit with
      | None => Returned None
      | Some [] => Returned None
      | Some df =>
          let ta := an_technical an in
          let df := ta_analyze_trend ta df in
          let df := ta_analyze_momentum ta df in
          let df := ta_analyze_volatility ta df in
          let df := ta_detect_candle_patterns ta df in
          let fib_levels := ta_get_fibonacci_levels ta df in
          let volume_analysis := vp_analyze (an_volume an) df in
          let volume_levels :=
            {| poc := vpoc volume_analysis;
               value_area_high := vah volume_analysis;
               value_area_low := val volume_analysis |} in
          let fa := an_fundamental an in
          let df := fa_analyze_volume fa df in
          let df := fa_analyze_trend fa df in
          let fundamental := fa_get_fundamental_metrics fa df in
          let df := analyze_data (an_signal an) df in
          let signals_df := detect_signals (an_signal an) df in
          let signals := collect_signals signals_df in
          match iloc_last df with
          | None => Raised
          | Some last =>
              Returned (Some
                {| res_symbol := sym;
                   current_price := close last;
                   technical_indicators :=
                     {| ti_trend_strength := trend_strength last;
                        ti_rsi := rsi last;
                        ti_macd := macd last;
                        ti_macd_signal := macd_signal last;
                        ti_bb_upper := bb_upper last;
                        ti_bb_lower := bb_lower last;
                        ti_atr := atr last |};
                   fibonacci_levels := fib_levels;
                   volume_profile := volume_levels;
                   fundamental_metrics := fundamental;
                   signals := signals |})
          end
      end
  end.

(** ** Signal Detector

    Modelled from the spec: [libs/signal_analyzer.py] is not among the
    sources; this module follows section 4.4 of the specification. *)

Module SignalDetector.

(** Modelled from the spec: the configuration of [SignalAnalyzer], whose
    source is not part of the two files above.  The thresholds are
    configuration; the two windowed tests (MACD crossing above its signal
    line within a recent window, Bollinger squeeze or ATR contraction) are
    carried as bar-indexed predicates over the frame. *)
Record Config : Type := mkConfig {
  trend_threshold : Q;
  rsi_band_low : Q;
  rsi_band_high : Q;
  macd_cross_recent : DataFrame -> nat -> bool;
  squeeze_or_contraction : DataFrame -> nat -> bool;
  min_count : nat
}.

Definition above (threshold : Q) (cell : option Q) : bool :=
  match cell with
  | Some v => negb (Qle_bool v threshold)
  | None => false
  end.

Definition inside (lo hi : Q) (cell : option Q) : bool :=
  match cell with
  | Some v => Qle_bool lo v && Qle_bool v hi
  | None => false
  end.

Definition any_pattern (row : Row) : bool :=
  existsb (row_get_pattern row) pattern_names.

(** Modelled from the spec: the five sub-conditions evaluated for the bar at
    index [i] ("trend_strength above a configurable threshold, RSI inside a
    configurable accumulation band, MACD crossing above its signal line
    within a recent window, Bollinger Band squeeze or ATR contraction, and at
    least one true candle-pattern flag"). *)
Definition sub_conditions (cfg : Config) (df : DataFrame) (i : nat) (row : Row)
  : list bool :=
  [ above (trend_threshold cfg) (trend_strength row);
    inside (rsi_band_low cfg) (rsi_band_high cfg) (rsi row);
    macd_cross_recent cfg df i;
    squeeze_or_contraction cfg df i;
    any_pattern row ].

Definition count_true (l : list bool) : nat :=
  List.length (filter (fun b => b) l).

(** Modelled from the spec: "signal_strength = (count of satisfied
    sub-conditions) / (total sub-conditions considered)". *)
Definition strength_of (conds : list bool) : Q :=
  inject_Z (Z.of_nat (count_true conds)) / inject_Z (Z.of_nat (List.length conds)).

(** Modelled from the spec: "The composite pre-pump condition is true when a
    configurable minimum count of these sub-conditions hold simultaneously". *)
Definition meets_minimum (cfg : Config) (conds : list bool) : bool :=
  Nat.leb (min_count cfg) (count_true conds).

Definition with_signal (row : Row) (strength : Q) (flag : bool) : Row :=
  {| timestamp := timestamp row; open := open row; high := high row;
     low := low row; close := close row; volume := volume row;
     trend_strength := trend_strength row; rsi := rsi row; macd := macd row;
     macd_signal := macd_signal row; bb_upper := bb_upper row;
     bb_lower := bb_lower row; atr := atr row; hammer := hammer row;
     morning_star := morning_star row; engulfing := engulfing row;
     doji := doji row;
     signal_strength := strength; pre_pump_signal := flag |}.

Definition detect_row (cfg : Config) (df : DataFrame) (i : nat) (row : Row) : Row :=
  let conds := sub_conditions cfg df i row in
  with_signal row (strength_of conds) (meets_minimum cfg conds).

Fixpoint detect_from (cfg : Config) (df : DataFrame) (i : nat) (rows : DataFrame)
  : DataFrame :=
  match rows with
  | [] => []
  | row :: rest => detect_row cfg df i row :: detect_from cfg df (S i) rest
  end.

(** Modelled from the spec: [SignalAnalyzer.detect_signals], one output row
    per bar with the two signal columns filled in. *)
Definition detect_signals (cfg : Config) (df : DataFrame) : DataFrame :=
  detect_from cfg df 0 df.

(** The number of satisfied sub-conditions of the bar at index [i]. *)
Definition satisfied (cfg : Config) (df : DataFrame) (i : nat) : option nat :=
  match nth_error df i with
  | Some row => Some (count_true (sub_conditions cfg df i row))
  | None => None
  end.

End SignalDetector.

(** ** Momentum: RSI

    Modelled from the spec: [libs/technical_analyzer.py] is not among the
    sources; this module follows the momentum paragraph of section 4.1, with
    simple averages of the gains and losses over the lookback. *)

Module Momentum.

Fixpoint Qsum (l : list Q) : Q :=
  match l with
  | [] => 0
  | x :: l' => x + Qsum l'
  end.

(** Close-to-close changes: entry [j] is [close (j+1) - close j]. *)
Fixpoint changes (closes : list Q) : list Q :=
  match closes with
  | a :: ((b :: _) as rest) => (b - a) :: changes rest
  | _ => []
  end.

Definition gain (d : Q) : Q := Qmax d 0.
Definition loss (d : Q) : Q := Qmax (- d) 0.

(** The [n] changes ending at bar [i] (for [n <= i]). *)
Definition window (n i : nat) (closes : list Q) : list Q :=
  firstn n (skipn (i - n) (changes closes)).

Definition average (n : nat) (l : list Q) : Q :=
  Qsum l / inject_Z (Z.of_nat n).

Definition average_gain (n i : nat) (closes : list Q) : Q :=
  average n (map gain (window n i closes)).

Definition average_loss (n i : nat) (closes : list Q) : Q :=
  average n (map loss (window n i closes)).

(** Modelled from the spec: "RSI over a fixed lookback (standard 0-100
    bounded oscillator; clamp numerically to avoid division-by-zero when
    average loss is 0 -> RSI = 100)", undefined for the first [n] bars
    (the warm-up window of the lookback [n]). *)
Definition rsi_at (n : nat) (closes : list Q) (i : nat) : option Q :=
  if Nat.ltb i n then None
  else
    let g := average_gain n i closes in
    let l := average_loss n i closes in
    if Qeq_bool l 0 then Some 100
    else Some (100 - 100 / (1 + g / l)).

(** Modelled from the spec: the [rsi] column of the Indicator Panel, one
    cell per input candle. *)
Definition rsi_column (n : nat) (df : DataFrame) : list (option Q) :=
  map (rsi_at n (map close df)) (seq 0 (List.length df)).

End Momentum.

(** ** Fibonacci levels

    Modelled from the spec: [TechnicalAnalyzer.get_fibonacci_levels] is not
    among the sources; this module follows the Fibonacci paragraph of
    section 4.1. *)

Module Fibonacci.
















End Fibonacci.

(** ** Volume profile

    Modelled from the spec: [libs/volume_profile_analyzer.py] is not among
    the sources; this module follows section 4.2. *)

Module VolumeProfile.

Import Momentum.

Record Config : Type := mkConfig {
  bins : nat;
  target_fraction : Q
}.

Definition default_config : Config :=
  {| bins := 24; target_fraction := 7 # 10 |}.

Definition min_low (df : DataFrame) : Q :=
  match df with
  | [] => 0
  | c :: rest => fold_left Qmin (map low rest) (low c)
  end.

Definition max_high (df : DataFrame) : Q :=
  match df with
  | [] => 0
  | c :: rest => fold_left Qmax (map high rest) (high c)
  end.

(** The equal-width partition of [[min(low), max(high)]]. *)
Record Grid : Type := mkGrid {
  g_lo : Q;
  g_width : Q;
  g_bins : nat
}.

Definition grid_of (cfg : Config) (df : DataFrame) : Grid :=
  {| g_lo := min_low df;
     g_width := (max_high df - min_low df) / inject_Z (Z.of_nat (bins cfg));
     g_bins := bins cfg |}.

(** Bin [i] is [[edge i, edge (i+1)]]. *)
Definition edge (g : Grid) (i : nat) : Q :=
  g_lo g + inject_Z (Z.of_nat i) * g_width g.

Definition midpoint (g : Grid) (i : nat) : Q :=
  (edge g i + edge g (S i)) / 2.

(** Length of the overlap of the candle range [[lo, hi]] with the bin
    [[a, b]]. *)
Definition overlap (a b lo hi : Q) : Q :=
  Qmax 0 (Qmin hi b - Qmax lo a).

(** The bin holding a single price: the first bin whose upper edge is not
    below it. *)
Definition point_bin (g : Grid) (p : Q) : nat :=
  Nat.min (g_bins g - 1)
    (List.length (filter (fun i => negb (Qle_bool p (edge g (S i)))) (seq 0 (g_bins g)))).

(** Modelled from the spec: "for each Candle, distribute its volume into the
    bin(s) its [low, high] range overlaps, weighted proportionally by range
    overlap".  A candle whose range is a single price lies in one bin and
    gives it all of its volume. *)
Definition share (g : Grid) (c : Row) (i : nat) : Q :=
  if Qle_bool (high c) (low c) then
    if Nat.eqb i (point_bin g (low c)) then volume c else 0
  else
    overlap (edge g i) (edge g (S i)) (low c) (high c) / (high c - low c) * volume c.

Definition bin_volume (g : Grid) (df : DataFrame) (i : nat) : Q :=
  Qsum (map (fun c => share g c i) df).

Definition histogram (cfg : Config) (df : DataFrame) : list Q :=
  map (bin_volume (grid_of cfg df) df) (seq 0 (bins cfg)).

Definition total_volume (df : DataFrame) : Q := Qsum (map volume df).

(** Index of the first maximum. *)
Fixpoint argmax_from (best : nat) (bestv : Q) (i : nat) (l : list Q) : nat :=
  match l with
  | [] => best
  | x :: l' =>
      if Qle_bool x bestv then argmax_from best bestv (S i) l'
      else argmax_from i x (S i) l'
  end.

Definition argmax (l : list Q) : nat :=
  match l with
  | [] => O
  | x :: l' => argmax_from 0 x 1 l'
  end.

(** A contiguous set of bins: the indices from [a_lo] to [a_hi]. *)
Record Area : Type := mkArea {
  a_lo : nat;
  a_hi : nat
}.

Definition area_size (a : Area) : nat := a_hi a - a_lo a + 1.

Definition area_volume (hist : list Q) (a : Area) : Q :=
  Qsum (firstn (area_size a) (skipn (a_lo a) hist)).

Definition reaches (hist : list Q) (target : Q) (a : Area) : bool :=
  Qle_bool target (area_volume hist a).

(** The contiguous sets of [size] bins, out of [n], that contain bin [p]. *)
Definition windows (n p size : nat) : list Area :=
  map (fun lo => {| a_lo := lo; a_hi := lo + size - 1 |})
    (filter (fun lo => Nat.leb lo p && Nat.leb p (lo + size - 1)
                       && Nat.ltb (lo + size - 1) n)
       (seq 0 n)).

(** The specification fixes how many bins the value area has, not which of
    several sets of that size is reported, beyond the tie-break "prefer the
    bin closer to the current close price".  The choice among the candidate
    sets of one size is therefore an interface: from the histogram, the grid
    and the current close it returns one of the candidates whenever there is
    one. *)
Class Selection : Type := {
  pick : list Q -> Grid -> Q -> list Area -> option Area;
  pick_in : forall hist g current_close l a,
    pick hist g current_close l = Some a -> In a l;
  pick_none : forall hist g current_close l,
    pick hist g current_close l = None -> l = []
}.

(** Modelled from the spec: "the minimal contiguous set of bins (expanding
    outward from the point-of-control bin) whose aggregated volume reaches a
    target fraction of total volume".  The sizes are tried in growing order;
    the first size with a set around bin [p] that reaches the target
    decides. *)
Fixpoint smallest_reaching {sel : Selection} (hist : list Q) (g : Grid)
  (current_close target : Q) (n p : nat) (sizes : list nat) : option Area :=
  match sizes with
  | [] => None
  | size :: rest =>
      match pick hist g current_close
              (filter (reaches hist target) (windows n p size)) with
      | Some a => Some a
      | None => smallest_reaching hist g current_close target n p rest
      end
  end.

Definition current_close (df : DataFrame) : Q :=
  match iloc_last df with
  | Some r => close r
  | None => 0
  end.

Definition poc_bin (cfg : Config) (df : DataFrame) : nat :=
  argmax (histogram cfg df).

Definition target_volume (cfg : Config) (df : DataFrame) : Q :=
  target_fraction cfg * total_volume df.

(** Modelled from the spec: the value area around the point-of-control bin;
    all bins when no set reaches the target. *)
Definition value_area {sel : Selection} (cfg : Config) (df : DataFrame) : Area :=
  match smallest_reaching (histogram cfg df) (grid_of cfg df) (current_close df)
          (target_volume cfg df) (bins cfg) (poc_bin cfg df) (seq 1 (bins cfg)) with
  | Some a => a
  | None => {| a_lo := 0; a_hi := bins cfg - 1 |}
  end.

(** Modelled from the spec: [VolumeProfileAnalyzer.analyze].  "Point of
    control = bin with maximum aggregated volume, reported as that bin's
    midpoint price"; "value_area_high/low = the high/low price bounds of that
    bin set"; a zero-width price range yields that single price three
    times. *)
Definition analyze {sel : Selection} (cfg : Config) (df : DataFrame) : VolumeAnalysis :=
  if Qeq_bool (max_high df) (min_low df) then
    {| vpoc := min_low df; vah := min_low df; val := min_low df |}
  else
    let g := grid_of cfg df in
    let a := value_area cfg df in
    {| vpoc := midpoint g (poc_bin cfg df);
       vah := edge g (S (a_hi a));
       val := edge g (a_lo a) |}.

(** A contiguous bin set inside the histogram that contains bin [p]. *)
Definition contains_bin (n p : nat) (a : Area) : Prop :=
  (a_lo a <= p /\ p <= a_hi a /\ a_hi a < n)%nat.

(** A price moved into the candle range [[lo, hi]]. *)
Definition clamp (lo hi x : Q) : Q := Qmin hi (Qmax lo x).

(** Every candle has [low <= high]. *)
Definition well_formed (df : DataFrame) : Prop :=
  forall c, In c df -> low c <= high c.


End VolumeProfile.

(** ** Proof automation for [Qmin] and [Qmax] *)

Ltac name_minmax :=
  repeat match goal with
  | |- context [Qmax ?x ?y] =>
      let H := fresh "Hmax" in let m := fresh "m" in
      pose proof (Q.max_spec x y) as H; set (m := Qmax x y) in *; clearbody m
  | |- context [Qmin ?x ?y] =>
      let H := fresh "Hmin" in let m := fresh "m" in
      pose proof (Q.min_spec x y) as H; set (m := Qmin x y) in *; clearbody m
  | _ : context [Qmax ?x ?y] |- _ =>
      let H := fresh "Hmax" in let m := fresh "m" in
      pose proof (Q.max_spec x y) as H; set (m := Qmax x y) in *; clearbody m
  | _ : context [Qmin ?x ?y] |- _ =>
      let H := fresh "Hmin" in let m := fresh "m" in
      pose proof (Q.min_spec x y) as H; set (m := Qmin x y) in *; clearbody m
  end.

Ltac split_minmax :=
  name_minmax;
  repeat match goal with
  | H : _ /\ _ \/ _ /\ _ |- _ => destruct H as [[? ?]|[? ?]]
  end.

(** ** Statements used by the theorems *)

(** Number of ranking rows carrying symbol [s]. *)
Definition has_symbol (s : string) (r : RankingRow) : bool :=
  match rr_symbol r with
  | Some s' => String.eqb s s'
  | None => false
  end.

Definition records_of (s : string) (out : list RankingRow) : list RankingRow :=
  filter (has_symbol s) out.

(** What one symbol adds to [all_rankings]. *)
Definition contribution (detector : PrePumpDetector) (sym : string) : list Ranking :=
  match analyze_symbol detector sym with
  | (Some df, Some ranking) =>
      match latest_signals df with
      | [] => []
      | _ :: _ => [set_symbol sym ranking]
      end
  | _ => []
  end.

(** The rows handed to the sort. *)
Definition collected (detector : PrePumpDetector) : list RankingRow :=
  map add_total_score
    (flat_map (contribution detector) (get_all_usdt_pairs (data_fetcher detector))).

(** What the batch entry [s'] adds to the rows of symbol [s]. *)
Definition rows_from (detector : PrePumpDetector) (s s' : string) : list RankingRow :=
  if String.eqb s s' then map add_total_score (contribution detector s) else [].

(** The pipeline of a symbol completes: data fetched and analysis produced. *)
Definition completes (detector : PrePumpDetector) (sym : string) : bool :=
  match analyze_symbol detector sym with
  | (Some _, Some _) => true
  | _ => false
  end.

(** The pipeline completes and at least one bar carries the signal flag. *)
Definition signals_detected (detector : PrePumpDetector) (sym : string) : bool :=
  match analyze_symbol detector sym with
  | (Some df, Some _) =>
      match latest_signals df with
      | [] => false
      | _ :: _ => true
      end
  | _ => false
  end.

(** Descending by score. *)
Definition score_ge (a b : RankingRow) : Prop :=
  rr_total_score b <= rr_total_score a.

Definition symbol_leb (a b : RankingRow) : bool :=
  match rr_symbol a, rr_symbol b with
  | Some x, Some y => String.leb x y
  | _, _ => false
  end.

(** Descending by score, equal scores ordered by symbol name ascending. *)
Definition score_then_symbol (a b : RankingRow) : Prop :=
  rr_total_score b < rr_total_score a
  \/ (rr_total_score a == rr_total_score b /\ symbol_leb a b = true).

(** The batch without symbol [t]. *)
Definition without_symbol (t : string) (detector : PrePumpDetector) : PrePumpDetector :=
  let f := data_fetcher detector in
  {| data_fetcher :=
       {| get_historical_data := get_historical_data f;
          get_all_usdt_pairs :=
            filter (fun s => negb (String.eqb s t)) (get_all_usdt_pairs f) |};
     signal_analyzer := signal_analyzer detector;
     ranking_analyzer := ranking_analyzer detector |}.

(** The batch in which the fetch for symbol [t] yields no data. *)
Definition with_failed_fetch (t : string) (detector : PrePumpDetector) : PrePumpDetector :=
  let f := data_fetcher detector in
  {| data_fetcher :=
       {| get_historical_data :=
            fun s tf => if String.eqb s t then None else get_historical_data f s tf;
          get_all_usdt_pairs := get_all_usdt_pairs f |};
     signal_analyzer := signal_analyzer detector;
     ranking_analyzer := ranking_analyzer detector |}.

(** [out] holds the detected row of a bar exactly when the bar satisfies at
    least the configured minimum count of sub-conditions. *)
Definition events_for_qualifying_bars (cfg : SignalDetector.Config)
  (df out : DataFrame) : Prop :=
  forall i row,
    nth_error (SignalDetector.detect_signals cfg df) i = Some row ->
    (In row out <->
     exists k, SignalDetector.satisfied cfg df i = Some k
               /\ (SignalDetector.min_count cfg <= k)%nat).

(** The five sub-conditions of the specification, stated as propositions
    about the bar (not through the detector's own tests). *)
Definition trend_holds (cfg : SignalDetector.Config) (row : Row) : Prop :=
  exists v, trend_strength row = Some v /\ SignalDetector.trend_threshold cfg < v.

Definition rsi_holds (cfg : SignalDetector.Config) (row : Row) : Prop :=
  exists v, rsi row = Some v
            /\ SignalDetector.rsi_band_low cfg <= v
            /\ v <= SignalDetector.rsi_band_high cfg.

Definition macd_holds (cfg : SignalDetector.Config) (df : DataFrame) (i : nat) : Prop :=
  SignalDetector.macd_cross_recent cfg df i = true.

Definition squeeze_holds (cfg : SignalDetector.Config) (df : DataFrame) (i : nat)
  : Prop :=
  SignalDetector.squeeze_or_contraction cfg df i = true.

Definition flag_set (cell : option Cell) : Prop :=
  exists c, cell = Some c /\ truthy c = true.

Definition pattern_holds (row : Row) : Prop :=
  flag_set (hammer row) \/ flag_set (morning_star row)
  \/ flag_set (engulfing row) \/ flag_set (doji row).

Definition holding (cfg : SignalDetector.Config) (df : DataFrame) (i : nat)
  (row : Row) : list Prop :=
  [trend_holds cfg row; rsi_holds cfg row; macd_holds cfg df i;
   squeeze_holds cfg df i; pattern_holds row].

(** [holds_count Ps k]: exactly [k] of the propositions [Ps] hold. *)
Inductive holds_count : list Prop -> nat -> Prop :=
| holds_none : holds_count [] 0
| holds_yes (P : Prop) (Ps : list Prop) (k : nat) :
    P -> holds_count Ps k -> holds_count (P :: Ps) (S k)
| holds_no (P : Prop) (Ps : list Prop) (k : nat) :
    ~ P -> holds_count Ps k -> holds_count (P :: Ps) k.

(** A pair with exactly one component [None]. *)
Definition half_none {A B : Type} (p : option A * option B) : bool :=
  match p with
  | (Some _, None) | (None, Some _) => true
  | _ => false
  end.

(** ** Fixtures *)

Module Fixtures.

Definition candle (t : Z) (o h l c v : Q) : Row :=
  {| timestamp := t; open := o; high := h; low := l; close := c; volume := v;
     trend_strength := None; rsi := None; macd := None; macd_signal := None;
     bb_upper := None; bb_lower := None; atr := None;
     hammer := None; morning_star := None; engulfing := None; doji := None;
     signal_strength := 0; pre_pump_signal := false |}.

(** A bar with a doji flag. *)
Definition doji_bar (t : Z) (c : Q) : Row :=
  {| timestamp := t; open := c; high := c + 1; low := c - 1; close := c;
     volume := 10;
     trend_strength := None; rsi := None; macd := None; macd_signal := None;
     bb_upper := None; bb_lower := None; atr := None;
     hammer := None; morning_star := None; engulfing := None;
     doji := Some (CellBool true);
     signal_strength := 0; pre_pump_signal := false |}.

Definition never (_ : DataFrame) (_ : nat) : bool := false.

(** One agreeing sub-condition is enough. *)
Definition cfg_one : SignalDetector.Config :=
  {| SignalDetector.trend_threshold := 0;
     SignalDetector.rsi_band_low := 30;
     SignalDetector.rsi_band_high := 70;
     SignalDetector.macd_cross_recent := never;
     SignalDetector.squeeze_or_contraction := never;
     SignalDetector.min_count := 1 |}.

Definition six_doji : DataFrame :=
  [doji_bar 0 10; doji_bar 1 11; doji_bar 2 12; doji_bar 3 13; doji_bar 4 14; doji_bar 5 15].

Definition quiet : DataFrame :=
  [candle 0 10 11 9 10 5; candle 1 10 11 9 10 5].

Definition one_doji : DataFrame :=
  [candle 0 10 11 9 10 5; doji_bar 1 10].

Definition the_signal_analyzer : SignalAnalyzer :=
  {| analyze_data := fun df => df;
     detect_signals := SignalDetector.detect_signals cfg_one |}.

(** Scores every frame 1. *)
Definition flat_ranker : PumpRankingAnalyzer :=
  {| ranking_analyze_symbol :=
       fun _ => Some {| symbol := None;
                        scores := {| total_score := 1; component_scores := [] |} |} |}.

(** Scores a frame by its number of bars. *)
Definition length_ranker : PumpRankingAnalyzer :=
  {| ranking_analyze_symbol :=
       fun df => Some {| symbol := None;
                         scores := {| total_score := inject_Z (Z.of_nat (List.length df));
                                      component_scores := [] |} |} |}.

(** Produces no ranking analysis. *)
Definition silent_ranker : PumpRankingAnalyzer :=
  {| ranking_analyze_symbol := fun _ => None |}.

Definition fetch_two (s _ : string) : option DataFrame :=
  if String.eqb s "AAAUSDT" then Some one_doji
  else if String.eqb s "BBBUSDT" then Some six_doji
  else if String.eqb s "QQQUSDT" then Some quiet
  else None.

Definition detector_of (symbols : list string) (ranker : PumpRankingAnalyzer)
  : PrePumpDetector :=
  {| data_fetcher := {| get_historical_data := fetch_two;
                        get_all_usdt_pairs := symbols |};
     signal_analyzer := the_signal_analyzer;
     ranking_analyzer := ranker |}.

Definition batch_ba : PrePumpDetector :=
  detector_of ["BBBUSDT"; "AAAUSDT"] flat_ranker.

Definition batch_ab : PrePumpDetector :=
  detector_of ["AAAUSDT"; "BBBUSDT"] flat_ranker.

Definition batch_by_length : PrePumpDetector :=
  detector_of ["AAAUSDT"; "BBBUSDT"] length_ranker.

Definition batch_with_quiet : PrePumpDetector :=
  detector_of ["AAAUSDT"; "QQQUSDT"] flat_ranker.

Definition batch_silent : PrePumpDetector :=
  detector_of ["AAAUSDT"] silent_ranker.

(** Five unit-wide candles, one per bin of a five-bin grid. *)
Definition skewed : DataFrame :=
  [candle 0 0 1 0 1 1; candle 1 1 2 1 2 10; candle 2 2 3 2 3 40;
   candle 3 3 4 3 4 9; candle 4 4 5 4 5 39].

Definition cfg_five : VolumeProfile.Config :=
  {| VolumeProfile.bins := 5; VolumeProfile.target_fraction := 7 # 10 |}.


Definition rising : DataFrame :=
  [candle 0 1 1 1 1 5; candle 1 1 2 1 2 5; candle 2 2 3 2 3 5; candle 3 3 3 2 2 5].

End Fixtures.

(** ** Further statements about the two files *)

(** What one symbol adds to [all_signals]: its latest flagged rows, tagged
    with the symbol. *)
Definition signal_group (detector : PrePumpDetector) (sym : string)
  : list (list (string * Row)) :=
  match analyze_symbol detector sym with
  | (Some df, Some _) =>
      match latest_signals df with
      | [] => []
      | latest => [map (fun r => (sym, r)) latest]
      end
  | _ => []
  end.

(** The same detector run over another list of symbols. *)
Definition with_symbols (symbols : list string) (detector : PrePumpDetector)
  : PrePumpDetector :=
  {| data_fetcher :=
       {| get_historical_data := get_historical_data (data_fetcher detector);
          get_all_usdt_pairs := symbols |};
     signal_analyzer := signal_analyzer detector;
     ranking_analyzer := ranking_analyzer detector |}.

(** The symbol contains a slash. *)
Definition has_slash (sym : string) : bool :=
  match String.index 0 "/" sym with
  | Some _ => true
  | None => false
  end.

(** The frame [analyze_coin] reads the current price and the indicator
    snapshot from: the fetched frame after the technical, fundamental and
    [analyze_data] stages. *)
Definition coin_frame (an : Analyzers) (df : DataFrame) : DataFrame :=
  let ta := an_technical an in
  let fa := an_fundamental an in
  analyze_data (an_signal an)
    (fa_analyze_trend fa
       (fa_analyze_volume fa
          (ta_detect_candle_patterns ta
             (ta_analyze_volatility ta
                (ta_analyze_momentum ta (ta_analyze_trend ta df)))))).

(** A stage that returns as many rows as it is given. *)
Definition keeps_rows (stage : DataFrame -> DataFrame) : Prop :=
  forall df, List.length (stage df) = List.length df.

(** The separator of [DEFAULT_SYMBOLS]. *)
Definition comma : Ascii.ascii := Eval compute in Ascii.ascii_of_nat 44.

(** [default_symbols.split(',')]: the pieces between the commas, empty
    pieces included; the empty string has the single piece [""]. *)
Fixpoint split_comma (s : string) : list string :=
  match s with
  | EmptyString => [EmptyString]
  | String c rest =>
      match split_comma rest with
      | [] => [String c EmptyString]
      | piece :: pieces =>
          if Ascii.eqb c comma then EmptyString :: piece :: pieces
          else String c piece :: pieces
      end
  end.

Module CoinFixtures.

Definition fetch_btc (sym _ : string) (_ : Z) : option DataFrame :=
  if String.eqb sym "BTC/USDT" then Some Fixtures.one_doji else None.

Definition same (df : DataFrame) : DataFrame := df.

Definition analyzers : Analyzers :=
  {| an_data_fetcher := fetch_btc;
     an_technical :=
       {| ta_analyze_trend := same; ta_analyze_momentum := same;
          ta_analyze_volatility := same; ta_detect_candle_patterns := same;
          ta_get_fibonacci_levels := fun _ => None |};
     an_fundamental :=
       {| fa_analyze_volume := same; fa_analyze_trend := same;
          fa_get_fundamental_metrics :=
            fun _ => {| market_cap := None; liquidity_24h := 0;
                        volume_trend := None; fundamental_score := 0;
                        volume_score := 0 |} |};
     an_volume := {| vp_analyze := fun _ => {| vpoc := 0; vah := 0; val := 0 |} |};
     an_signal := Fixtures.the_signal_analyzer |}.

(** An environment without settings, and [int] on the default limit. *)
Definition bare_env : Env :=
  {| getenv := fun _ => None;
     int_of := fun v => if String.eqb v "500" then Some 500%Z else None |}.

End CoinFixtures.

(** ** A sort kind

    One sort that meets [SortValues]: positions inserted one by one, each
    stepping over the positions with strictly larger keys. *)

Fixpoint insert_index (keys : list Q) (i : nat) (l : list nat) : list nat :=
  match l with
  | [] => [i]
  | j :: l' =>
      match nth i keys 0 ?= nth j keys 0 with
      | Lt => j :: insert_index keys i l'
      | _ => i :: l
      end
  end.

Definition insertion_indexer (keys : list Q) : list nat :=
  fold_right (insert_index keys) [] (seq 0 (List.length keys)).

Lemma insert_index_perm (keys : list Q) (i : nat) (l : list nat) :
  Permutation (insert_index keys i l) (i :: l).
Proof.
  induction l as [|j l IH]; simpl; [reflexivity|].
  destruct (nth i keys 0 ?= nth j keys 0); try reflexivity.
  rewrite IH. apply perm_swap.
Qed.

Lemma insertion_indexer_perm (keys : list Q) :
  Permutation (insertion_indexer keys) (seq 0 (List.length keys)).
Proof.
  unfold insertion_indexer.
  induction (seq 0 (List.length keys)) as [|i l IH]; simpl; [reflexivity|].
  rewrite insert_index_perm. now constructor.
Qed.

Lemma insert_index_sorted (keys : list Q) (i : nat) (l : list nat) :
  StronglySorted (fun a b => nth b keys 0 <= nth a keys 0) l ->
  StronglySorted (fun a b => nth b keys 0 <= nth a keys 0) (insert_index keys i l).
Proof.
  induction l as [|j l IH]; intros S; simpl.
  - constructor; constructor.
  - inversion S as [|? ? Sl Fj]; subst.
    destruct (nth i keys 0 ?= nth j keys 0) eqn:C.
    + apply Qeq_alt in C.
      constructor; [exact S|]. constructor.
      * rewrite C. apply Qle_refl.
      * eapply Forall_impl; [|exact Fj]. intros y Hy. simpl in *.
        rewrite C. exact Hy.
    + apply Qlt_alt in C.
      constructor; [now apply IH|].
      rewrite Forall_forall. intros y Hy.
      apply (Permutation_in _ (insert_index_perm keys i l)) in Hy.
      destruct Hy as [<-|Hy].
      * now apply Qlt_le_weak.
      * rewrite Forall_forall in Fj. now apply Fj.
    + apply Qgt_alt in C.
      constructor; [exact S|]. constructor.
      * now apply Qlt_le_weak.
      * eapply Forall_impl; [|exact Fj]. intros y Hy. simpl in *.
        eapply Qle_trans; [exact Hy|]. now apply Qlt_le_weak.
Qed.

Lemma insertion_indexer_sorted (keys : list Q) :
  StronglySorted (fun a b => nth b keys 0 <= nth a keys 0) (insertion_indexer keys).
Proof.
  unfold insertion_indexer.
  induction (seq 0 (List.length keys)) as [|i l IH]; simpl; [constructor|].
  now apply insert_index_sorted.
Qed.

Definition insertion_kind : SortValues :=
  {| indexer := insertion_indexer;
     indexer_perm := insertion_indexer_perm;
     indexer_sorted := insertion_indexer_sorted |}.

(** ** A selection

    One choice that meets [VolumeProfile.Selection]: of two candidate sets
    the one holding more volume is kept, and of two with equal volume the
    one whose midpoint is closer to the current close. *)

Definition area_midpoint (g : VolumeProfile.Grid) (a : VolumeProfile.Area) : Q :=
  (VolumeProfile.edge g (VolumeProfile.a_lo a)
   + VolumeProfile.edge g (S (VolumeProfile.a_hi a))) / 2.

Definition prefer (hist : list Q) (g : VolumeProfile.Grid) (current_close : Q)
  (a b : VolumeProfile.Area) : VolumeProfile.Area :=
  match VolumeProfile.area_volume hist a ?= VolumeProfile.area_volume hist b with
  | Gt => a
  | Lt => b
  | Eq =>
      if Qle_bool (Qabs (area_midpoint g a - current_close))
                  (Qabs (area_midpoint g b - current_close))
      then a else b
  end.

Definition best (hist : list Q) (g : VolumeProfile.Grid) (current_close : Q)
  (l : list VolumeProfile.Area) : option VolumeProfile.Area :=
  match l with
  | [] => None
  | a :: rest => Some (fold_left (prefer hist g current_close) rest a)
  end.

Lemma prefer_either (hist : list Q) (g : VolumeProfile.Grid) (cc : Q)
  (a b : VolumeProfile.Area) :
  prefer hist g cc a b = a \/ prefer hist g cc a b = b.
Proof.
  unfold prefer.
  destruct (VolumeProfile.area_volume hist a ?= VolumeProfile.area_volume hist b); auto.
  destruct (Qle_bool _ _); auto.
Qed.

Lemma fold_prefer_in (hist : list Q) (g : VolumeProfile.Grid) (cc : Q)
  (l : list VolumeProfile.Area) :
  forall a, In (fold_left (prefer hist g cc) l a) (a :: l).
Proof.
  induction l as [|b l IH]; intros a; simpl; [now left|].
  destruct (IH (prefer hist g cc a b)) as [E|I].
  - destruct (prefer_either hist g cc a b) as [P|P]; rewrite P in *; auto.
  - auto.
Qed.

Lemma best_in (hist : list Q) (g : VolumeProfile.Grid) (cc : Q)
  (l : list VolumeProfile.Area) (a : VolumeProfile.Area) :
  best hist g cc l = Some a -> In a l.
Proof.
  destruct l as [|b l]; [discriminate|]. simpl. intros H. injection H as <-.
  apply fold_prefer_in.
Qed.

Lemma best_none (hist : list Q) (g : VolumeProfile.Grid) (cc : Q)
  (l : list VolumeProfile.Area) :
  best hist g cc l = None -> l = [].
Proof. destruct l; [reflexivity | discriminate]. Qed.

Definition most_volume_then_closest : VolumeProfile.Selection :=
  {| VolumeProfile.pick := best;
     VolumeProfile.pick_in := best_in;
     VolumeProfile.pick_none := best_none |}.

(** * Properties *)

(** ** The sort *)

Lemma take_rows_from {A : Type} (rows : list A) :
  forall before,
    take_rows (before ++ rows) (seq (List.length before) (List.length rows)) = rows.
Proof.
  induction rows as [|r rows IH]; intros before; [reflexivity|].
  cbn [List.length seq]. unfold take_rows. cbn [flat_map].
  rewrite nth_error_app2, Nat.sub_diag by lia. cbn [nth_error app].
  f_equal.
  replace (before ++ r :: rows) with ((before ++ [r]) ++ rows)
    by (now rewrite <- app_assoc).
  replace (S (List.length before)) with (List.length (before ++ [r]))
    by (rewrite length_app; simpl; lia).
  apply IH.
Qed.

Lemma take_rows_all {A : Type} (rows : list A) :
  take_rows rows (seq 0 (List.length rows)) = rows.
Proof. apply (take_rows_from rows []). Qed.

Lemma in_take_rows {A : Type} (rows : list A) (positions : list nat) (r : A) :
  In r (take_rows rows positions) ->
  exists i, In i positions /\ nth_error rows i = Some r.
Proof.
  unfold take_rows. intros H. apply in_flat_map in H.
  destruct H as [i [Hi H]]. exists i. split; [exact Hi|].
  destruct (nth_error rows i); [|contradiction].
  destruct H as [<-|[]]. reflexivity.
Qed.

Lemma sort_values_desc_perm {kind : SortValues} (l : list RankingRow) :
  Permutation (sort_values_desc l) l.
Proof.
  unfold sort_values_desc, take_rows.
  rewrite (indexer_perm (map rr_total_score l)), length_map.
  fold (take_rows l (seq 0 (List.length l))). now rewrite take_rows_all.
Qed.

Lemma score_ge_trans (a b c : RankingRow) :
  score_ge a b -> score_ge b c -> score_ge a c.
Proof. unfold score_ge. intros H1 H2. eapply Qle_trans; eassumption. Qed.

Lemma key_of_row (rows : list RankingRow) (i : nat) (r : RankingRow) :
  nth_error rows i = Some r -> nth i (map rr_total_score rows) 0 = rr_total_score r.
Proof.
  revert i. induction rows as [|x rows IH]; intros [|i] H; try discriminate.
  - injection H as <-. reflexivity.
  - simpl. now apply IH.
Qed.

Lemma take_rows_sorted (rows : list RankingRow) (positions : list nat) :
  StronglySorted
    (fun i j => nth j (map rr_total_score rows) 0 <= nth i (map rr_total_score rows) 0)
    positions ->
  StronglySorted score_ge (take_rows rows positions).
Proof.
  induction 1 as [|i positions S IH F]; [constructor|].
  change (take_rows rows (i :: positions))
    with ((match nth_error rows i with Some r => [r] | None => [] end)
          ++ take_rows rows positions).
  destruct (nth_error rows i) as [r|] eqn:E; [|exact IH].
  constructor; [exact IH|].
  rewrite Forall_forall. intros r' H.
  apply in_take_rows in H. destruct H as [j [Hj Ej]].
  rewrite Forall_forall in F. specialize (F j Hj).
  rewrite (key_of_row _ _ _ E), (key_of_row _ _ _ Ej) in F. exact F.
Qed.

Lemma sort_values_desc_sorted {kind : SortValues} (l : list RankingRow) :
  StronglySorted score_ge (sort_values_desc l).
Proof.
  unfold sort_values_desc. apply take_rows_sorted. apply indexer_sorted.
Qed.

Lemma sort_values_desc_nil {kind : SortValues} : sort_values_desc [] = [].
Proof.
  apply Permutation_nil. symmetry. apply sort_values_desc_perm.
Qed.

(** ** The batch loop *)

Section BatchLoop.

Context {kind : SortValues}.
Variable detector : PrePumpDetector.

Lemma loop_body_rankings (acc : Acc) (sym : string) :
  all_rankings (loop_body detector acc sym)
  = all_rankings acc ++ contribution detector sym.
Proof.
  unfold loop_body, contribution.
  destruct (analyze_symbol detector sym) as [[df|] [rk|]];
    try (now rewrite app_nil_r).
  destruct (latest_signals df); simpl; [now rewrite app_nil_r | reflexivity].
Qed.

Lemma loop_body_signals (acc : Acc) (sym : string) :
  List.length (all_signals (loop_body detector acc sym))
  = (List.length (all_signals acc) + List.length (contribution detector sym))%nat.
Proof.
  unfold loop_body, contribution.
  destruct (analyze_symbol detector sym) as [[df|] [rk|]]; simpl; try lia.
  destruct (latest_signals df); simpl; [lia | rewrite length_app; simpl; lia].
Qed.

Lemma fold_loop_rankings (symbols : list string) :
  forall acc,
    all_rankings (fold_left (loop_body detector) symbols acc)
    = all_rankings acc ++ flat_map (contribution detector) symbols.
Proof.
  induction symbols as [|s rest IH]; intros acc; simpl.
  - now rewrite app_nil_r.
  - rewrite IH, loop_body_rankings, <- app_assoc. reflexivity.
Qed.

Lemma fold_loop_signals (symbols : list string) :
  forall acc,
    List.length (all_signals (fold_left (loop_body detector) symbols acc))
    = (List.length (all_signals acc)
       + List.length (flat_map (contribution detector) symbols))%nat.
Proof.
  induction symbols as [|s rest IH]; intros acc; simpl.
  - lia.
  - rewrite IH, loop_body_signals, length_app. lia.
Qed.

Lemma run_loop_rankings (symbols : list string) :
  all_rankings (run_loop detector symbols)
  = flat_map (contribution detector) symbols.
Proof. unfold run_loop. now rewrite fold_loop_rankings. Qed.

Lemma run_loop_signals (symbols : list string) :
  List.length (all_signals (run_loop detector symbols))
  = List.length (all_rankings (run_loop detector symbols)).
Proof.
  rewrite run_loop_rankings. unfold run_loop.
  now rewrite fold_loop_signals.
Qed.

Lemma ranking_output_sorted_collected :
  ranking_output detector = sort_values_desc (collected detector).
Proof.
  unfold ranking_output, main, collected.
  destruct (get_all_usdt_pairs (data_fetcher detector)) as [|s rest] eqn:E.
  - simpl. now rewrite sort_values_desc_nil.
  - pose proof (run_loop_signals (s :: rest)) as L.
    pose proof (run_loop_rankings (s :: rest)) as R.
    destruct (all_signals (run_loop detector (s :: rest))) as [|x xs].
    + simpl in L. rewrite <- R.
      destruct (all_rankings (run_loop detector (s :: rest)));
        [simpl; now rewrite sort_values_desc_nil | discriminate].
    + cbn [rankings_df]. now rewrite R.
Qed.

End BatchLoop.

Lemma strongly_sorted_nth {A : Type} (R : A -> A -> Prop) (l : list A) :
  StronglySorted R l ->
  forall i j a b, (i < j)%nat ->
    nth_error l i = Some a -> nth_error l j = Some b -> R a b.
Proof.
  induction 1 as [|x l S IH F]; intros i j a b Lt Hi Hj.
  - destruct i; discriminate.
  - destruct j as [|j]; [lia|].
    destruct i as [|i]; simpl in Hi, Hj.
    + injection Hi as <-. rewrite Forall_forall in F.
      apply F. eapply nth_error_In; eassumption.
    + eapply IH; [|eassumption|eassumption]. lia.
Qed.

(** ** Records per symbol *)

Lemma filter_const_perm {A : Type} (p : A -> bool) (l l' : list A) :
  Permutation l l' ->
  (forall y z, In y l -> In z l -> p y = true -> p z = true -> y = z) ->
  filter p l = filter p l'.
Proof.
  intros P U.
  assert (C : forall (m : list A) (x : A),
             (forall y, In y m -> y = x) -> m = repeat x (List.length m)).
  { induction m as [|y m IH]; intros x Hx; simpl; [reflexivity|].
    rewrite (Hx y (or_introl eq_refl)). f_equal.
    apply IH. intros z Hz. apply Hx. now right. }
  assert (PF : Permutation (filter p l) (filter p l')).
  { clear U. induction P; simpl.
    - constructor.
    - destruct (p x); [now constructor | assumption].
    - destruct (p x), (p y); try reflexivity. apply perm_swap.
    - etransitivity; eassumption. }
  destruct (filter p l) as [|x m] eqn:E.
  - symmetry. now apply Permutation_nil.
  - rewrite <- E in *.
    assert (Hx : In x (filter p l)) by (rewrite E; now left).
    apply filter_In in Hx. destruct Hx as [Hxl Hxp].
    rewrite (C (filter p l) x), (C (filter p l') x).
    + now rewrite (Permutation_length PF).
    + intros y Hy. apply (Permutation_in _ (Permutation_sym PF)) in Hy.
      apply filter_In in Hy. destruct Hy. now apply U.
    + intros y Hy. apply filter_In in Hy. destruct Hy. now apply U.
Qed.

Lemma contribution_symbol (detector : PrePumpDetector) (s : string) (r : Ranking) :
  In r (contribution detector s) -> symbol r = Some s.
Proof.
  unfold contribution.
  destruct (analyze_symbol detector s) as [[df|] [rk|]]; try contradiction.
  destruct (latest_signals df); [contradiction|].
  intros [<-|[]]. reflexivity.
Qed.

Lemma contribution_unique (detector : PrePumpDetector) (s : string) (r r' : Ranking) :
  In r (contribution detector s) -> In r' (contribution detector s) -> r = r'.
Proof.
  unfold contribution.
  destruct (analyze_symbol detector s) as [[df|] [rk|]]; try contradiction.
  destruct (latest_signals df); [contradiction|].
  intros [<-|[]] [<-|[]]. reflexivity.
Qed.

Lemma contribution_length (detector : PrePumpDetector) (s : string) :
  List.length (contribution detector s)
  = if signals_detected detector s then 1%nat else 0%nat.
Proof.
  unfold contribution, signals_detected.
  destruct (analyze_symbol detector s) as [[df|] [rk|]]; try reflexivity.
  destruct (latest_signals df); reflexivity.
Qed.

Lemma records_of_contribution (detector : PrePumpDetector) (s s' : string) :
  records_of s (map add_total_score (contribution detector s'))
  = rows_from detector s s'.
Proof.
  unfold records_of, rows_from.
  destruct (String.eqb s s') eqn:E.
  - apply String.eqb_eq in E. subst s'.
    apply forallb_filter_id. apply forallb_forall.
    intros y Hy. apply in_map_iff in Hy. destruct Hy as [r [<- Hr]].
    unfold has_symbol, rr_symbol. simpl.
    rewrite (contribution_symbol _ _ _ Hr). apply String.eqb_refl.
  - assert (N : forall y, In y (map add_total_score (contribution detector s')) ->
                      has_symbol s y = false).
    { intros y Hy. apply in_map_iff in Hy. destruct Hy as [r [<- Hr]].
      unfold has_symbol, rr_symbol. simpl.
      now rewrite (contribution_symbol _ _ _ Hr). }
    induction (map add_total_score (contribution detector s')) as [|y m IH];
      simpl; [reflexivity|].
    rewrite (N y (or_introl eq_refl)). apply IH.
    intros z Hz. apply N. now right.
Qed.

Lemma records_of_collected (detector : PrePumpDetector) (s : string) :
  records_of s (collected detector)
  = flat_map (rows_from detector s) (get_all_usdt_pairs (data_fetcher detector)).
Proof.
  unfold collected.
  induction (get_all_usdt_pairs (data_fetcher detector)) as [|s' rest IH];
    simpl; [reflexivity|].
  rewrite map_app. unfold records_of in *. rewrite filter_app.
  f_equal; [apply records_of_contribution | exact IH].
Qed.

Lemma records_of_output {kind : SortValues} (detector : PrePumpDetector) (s : string) :
  records_of s (ranking_output detector)
  = flat_map (rows_from detector s) (get_all_usdt_pairs (data_fetcher detector)).
Proof.
  rewrite ranking_output_sorted_collected, <- records_of_collected.
  unfold records_of. apply filter_const_perm.
  - apply sort_values_desc_perm.
  - intros y z Hy Hz Py Pz.
    apply (Permutation_in _ (sort_values_desc_perm _)) in Hy, Hz.
    assert (K : forall w, In w (collected detector) -> has_symbol s w = true ->
                      exists r, w = add_total_score r /\ In r (contribution detector s)).
    { intros w Hw Pw. unfold collected in Hw.
      apply in_map_iff in Hw. destruct Hw as [r [<- Hr]].
      apply in_flat_map in Hr. destruct Hr as [s' [_ Hr]].
      exists r. split; [reflexivity|].
      unfold has_symbol, rr_symbol in Pw. simpl in Pw.
      rewrite (contribution_symbol _ _ _ Hr) in Pw.
      apply String.eqb_eq in Pw. now subst s'. }
    destruct (K y Hy Py) as [ry [-> Hry]].
    destruct (K z Hz Pz) as [rz [-> Hrz]].
    f_equal. eapply contribution_unique; eassumption.
Qed.

Lemma rows_from_count (detector : PrePumpDetector) (s : string) (symbols : list string) :
  List.length (flat_map (rows_from detector s) symbols)
  = (count_occ string_dec symbols s * List.length (contribution detector s))%nat.
Proof.
  induction symbols as [|s' rest IH]; simpl; [reflexivity|].
  rewrite length_app, IH. unfold rows_from.
  destruct (string_dec s' s) as [->|N].
  - rewrite String.eqb_refl, length_map. lia.
  - destruct (String.eqb s s') eqn:E.
    + apply String.eqb_eq in E. congruence.
    + simpl. lia.
Qed.

(** ** Ranking order *)

Lemma flat_batches_collected :
  collected Fixtures.batch_ba
  = [add_total_score (set_symbol "BBBUSDT"
       {| symbol := None; scores := {| total_score := 1; component_scores := [] |} |});
     add_total_score (set_symbol "AAAUSDT"
       {| symbol := None; scores := {| total_score := 1; component_scores := [] |} |})]
  /\ collected Fixtures.batch_ab
     = [add_total_score (set_symbol "AAAUSDT"
          {| symbol := None; scores := {| total_score := 1; component_scores := [] |} |});
        add_total_score (set_symbol "BBBUSDT"
          {| symbol := None; scores := {| total_score := 1; component_scores := [] |} |})].
Proof. split; vm_compute; reflexivity. Qed.

(** C1, as stated, fails under every sort kind: the sort sees only the key
    column, so it takes the positions of the batch (BBBUSDT, AAAUSDT) and of
    the batch (AAAUSDT, BBBUSDT), both scoring 1 and 1, in the same order,
    and one of the two runs puts BBBUSDT before AAAUSDT. *)
Lemma ranking_ties_not_by_symbol :
  ~ exists kind : SortValues,
      StronglySorted score_then_symbol (ranking_output (kind := kind) Fixtures.batch_ba)
      /\ StronglySorted score_then_symbol (ranking_output (kind := kind) Fixtures.batch_ab).
Proof.
  intros [kind [Hba Hab]].
  rewrite ranking_output_sorted_collected in Hba, Hab.
  destruct flat_batches_collected as [Eba Eab]. rewrite Eba in Hba. rewrite Eab in Hab.
  unfold sort_values_desc in Hba, Hab. cbn [map add_total_score rr_total_score] in Hba, Hab.
  cbn [set_symbol scores total_score] in Hba, Hab.
  pose proof (indexer_perm [1; 1]) as P.
  apply Permutation_sym, Permutation_length_2_inv in P.
  cbn [List.length seq] in P.
  assert (N : forall a b : RankingRow,
             rr_total_score a = 1 -> rr_total_score b = 1 ->
             symbol_leb a b = false ->
             ~ StronglySorted score_then_symbol [a; b]).
  { intros a b Ea Eb L S. inversion S as [|? ? _ F]; subst.
    inversion F as [|? ? [Lt|[_ Le]] _]; subst.
    - rewrite Ea, Eb in Lt. now apply Qlt_irrefl in Lt.
    - congruence. }
  destruct P as [P|P]; rewrite P in Hba, Hab.
  - revert Hba. apply N; reflexivity.
  - revert Hab. apply N; reflexivity.
Qed.

(** C1 (amended): the ranking output of a batch run is the collected ranking
    rows reordered into descending total score: it is a permutation of the
    collected rows, every earlier row scores at least as much as every later
    one, and a row with a strictly larger score stands strictly before a row
    with a smaller one.  This holds for every sort kind; the sort key is the
    total score alone, and no ordering by symbol name is applied to rows of
    equal score. *)
Theorem ranking_sorted_by_score {kind : SortValues} (detector : PrePumpDetector) :
  Permutation (ranking_output detector) (collected detector)
  /\ StronglySorted score_ge (ranking_output detector)
  /\ (forall i j a b,
        nth_error (ranking_output detector) i = Some a ->
        nth_error (ranking_output detector) j = Some b ->
        rr_total_score b < rr_total_score a -> (i < j)%nat).
Proof.
  pose proof (ranking_output_sorted_collected detector) as E.
  assert (S : StronglySorted score_ge (ranking_output detector)).
  { rewrite E. apply sort_values_desc_sorted. }
  repeat split; try assumption.
  - rewrite E. apply sort_values_desc_perm.
  - intros i j a b Hi Hj Lt.
    destruct (Nat.lt_trichotomy i j) as [L|[->|G]]; [exact L| |].
    + rewrite Hi in Hj. injection Hj as ->. now apply Qlt_irrefl in Lt.
    + pose proof (strongly_sorted_nth _ _ S j i b a G Hj Hi) as Ge.
      unfold score_ge in Ge. exfalso. apply (Qlt_irrefl (rr_total_score a)).
      eapply Qle_lt_trans; eassumption.
Qed.

Lemma ranking_sorted_by_score_witness :
  map rr_symbol (ranking_output (kind := insertion_kind) Fixtures.batch_by_length)
  = [Some "BBBUSDT"; Some "AAAUSDT"]
  /\ (0 < 1)%nat.
Proof.
  split; [vm_compute; reflexivity|].
  destruct (ranking_sorted_by_score (kind := insertion_kind) Fixtures.batch_by_length)
    as [_ [_ H]].
  apply (H 0%nat 1%nat
           (add_total_score (set_symbol "BBBUSDT"
              {| symbol := None;
                 scores := {| total_score := inject_Z 6; component_scores := [] |} |}))
           (add_total_score (set_symbol "AAAUSDT"
              {| symbol := None;
                 scores := {| total_score := inject_Z 2; component_scores := [] |} |}))).
  - vm_compute. reflexivity.
  - vm_compute. reflexivity.
  - vm_compute. reflexivity.
Defined.

(** ** One record per signalling symbol *)

(** C2, as stated, fails: QQQUSDT is fetched and analysed, its ranking
    analysis is produced, yet none of its bars carries the signal flag and
    the run puts out no ranking row for it. *)
Lemma completed_symbol_without_record :
  let d := Fixtures.batch_with_quiet in
  NoDup (get_all_usdt_pairs (data_fetcher d))
  /\ In "QQQUSDT" (get_all_usdt_pairs (data_fetcher d))
  /\ completes d "QQQUSDT" = true
  /\ List.length (records_of "QQQUSDT" (ranking_output (kind := insertion_kind) d)) <> 1%nat.
Proof.
  cbv zeta. repeat split.
  - repeat constructor; simpl; intuition discriminate.
  - simpl. auto.
  - vm_compute. discriminate.
Qed.

(** C2 (amended): in a batch of distinct symbols, a symbol whose pipeline
    completes and whose analysed frame has at least one bar carrying the
    pre-pump flag contributes exactly one ranking row; a symbol whose frame
    has no flagged bar, or whose pipeline fails upstream (no data, no ranking
    analysis), contributes no ranking row at all. *)
Theorem one_record_per_signalling_symbol {kind : SortValues} (detector : PrePumpDetector) (s : string) :
  NoDup (get_all_usdt_pairs (data_fetcher detector)) ->
  In s (get_all_usdt_pairs (data_fetcher detector)) ->
  (signals_detected detector s = true ->
     List.length (records_of s (ranking_output detector)) = 1%nat)
  /\ (signals_detected detector s = false ->
        records_of s (ranking_output detector) = [])
  /\ (completes detector s = false ->
        records_of s (ranking_output detector) = []).
Proof.
  intros ND I.
  assert (L : List.length (records_of s (ranking_output detector))
              = if signals_detected detector s then 1%nat else 0%nat).
  { rewrite records_of_output, rows_from_count, contribution_length.
    pose proof (proj1 (NoDup_count_occ string_dec _) ND s) as Le.
    pose proof (proj1 (count_occ_In string_dec _ s) I) as Ge.
    destruct (signals_detected detector s); lia. }
  assert (Z : signals_detected detector s = false ->
              records_of s (ranking_output detector) = []).
  { intros F. rewrite F in L. now apply length_zero_iff_nil. }
  repeat split.
  - intros T. now rewrite T in L.
  - exact Z.
  - intros F. apply Z. unfold completes in F. unfold signals_detected.
    destruct (analyze_symbol detector s) as [[df|] [rk|]];
      try reflexivity; discriminate.
Qed.

Lemma one_record_per_signalling_symbol_witness :
  List.length (records_of "AAAUSDT" (ranking_output (kind := insertion_kind) Fixtures.batch_with_quiet)) = 1%nat.
Proof.
  apply (one_record_per_signalling_symbol Fixtures.batch_with_quiet "AAAUSDT").
  - repeat constructor; simpl; intuition discriminate.
  - simpl. auto.
  - vm_compute. reflexivity.
Defined.

(** ** Isolation between symbols *)

Lemma contribution_without (t : string) (detector : PrePumpDetector) (s : string) :
  contribution (without_symbol t detector) s = contribution detector s.
Proof. reflexivity. Qed.

Lemma contribution_failed_fetch (t : string) (detector : PrePumpDetector) (s : string) :
  s <> t ->
  contribution (with_failed_fetch t detector) s = contribution detector s.
Proof.
  intros N. unfold contribution, analyze_symbol, analyze_symbol_logged.
  simpl. apply String.eqb_neq in N. now rewrite N.
Qed.

Lemma rows_from_other (detector : PrePumpDetector) (s t : string) :
  s <> t -> rows_from detector s t = [].
Proof.
  intros N. unfold rows_from. apply String.eqb_neq in N. now rewrite N.
Qed.

Lemma flat_map_rows_without (detector : PrePumpDetector) (s t : string)
  (symbols : list string) :
  s <> t ->
  flat_map (rows_from detector s)
    (filter (fun x => negb (String.eqb x t)) symbols)
  = flat_map (rows_from detector s) symbols.
Proof.
  intros N. induction symbols as [|x rest IH]; simpl; [reflexivity|].
  destruct (String.eqb x t) eqn:E; simpl.
  - apply String.eqb_eq in E. subst x.
    now rewrite (rows_from_other _ _ _ N).
  - now rewrite IH.
Qed.

(** C5: the ranking rows of a symbol [s] are the same whether another symbol
    [t] is in the batch or not, and whether the fetch for [t] succeeds or
    fails: a symbol's ranking row depends on that symbol's own data and the
    shared analyzers only. *)
Theorem ranking_record_isolated {kind : SortValues} (detector : PrePumpDetector) (s t : string) :
  s <> t ->
  records_of s (ranking_output (without_symbol t detector))
  = records_of s (ranking_output detector)
  /\ records_of s (ranking_output (with_failed_fetch t detector))
     = records_of s (ranking_output detector).
Proof.
  intros N. rewrite !records_of_output. split.
  - change (get_all_usdt_pairs (data_fetcher (without_symbol t detector)))
      with (filter (fun x => negb (String.eqb x t))
              (get_all_usdt_pairs (data_fetcher detector))).
    change (rows_from (without_symbol t detector) s)
      with (rows_from detector s).
    now apply flat_map_rows_without.
  - change (get_all_usdt_pairs (data_fetcher (with_failed_fetch t detector)))
      with (get_all_usdt_pairs (data_fetcher detector)).
    apply flat_map_ext. intros x. unfold rows_from.
    now rewrite (contribution_failed_fetch _ _ _ N).
Qed.

Lemma ranking_record_isolated_witness :
  records_of "AAAUSDT" (ranking_output (kind := insertion_kind) (without_symbol "BBBUSDT" Fixtures.batch_by_length))
  = records_of "AAAUSDT" (ranking_output (kind := insertion_kind) Fixtures.batch_by_length)
  /\ records_of "AAAUSDT" (ranking_output (kind := insertion_kind) (with_failed_fetch "BBBUSDT" Fixtures.batch_by_length))
     = records_of "AAAUSDT" (ranking_output (kind := insertion_kind) Fixtures.batch_by_length).
Proof.
  apply (ranking_record_isolated Fixtures.batch_by_length "AAAUSDT" "BBBUSDT").
  intros E. discriminate E.
Defined.

(** ** [analyze_symbol] on a failed fetch *)

(** C10, as stated, fails: when the data is fetched and the ranking analyzer
    yields no analysis, the DataFrame component is present and the ranking
    component is [None]. *)
Lemma analyze_symbol_half_none :
  half_none (analyze_symbol Fixtures.batch_silent "AAAUSDT") = true.
Proof. vm_compute. reflexivity. Qed.

(** C10 (amended): when the data fetch yields [None], [analyze_symbol]
    returns [(None, None)] and has invoked the fetch only; when it yields
    data, the first component is the analysed frame and the second is exactly
    what the ranking analyzer returns for that frame; a pair with a missing
    frame and a present ranking is never returned. *)
Theorem analyze_symbol_fetch_failure (self : PrePumpDetector) (sym timeframe : string) :
  (get_historical_data (data_fetcher self) sym timeframe = None ->
     analyze_symbol_logged self sym timeframe
     = ((None, None), [CallFetch sym timeframe]))
  /\ (forall df,
        get_historical_data (data_fetcher self) sym timeframe = Some df ->
        let df' := detect_signals (signal_analyzer self)
                     (analyze_data (signal_analyzer self) df) in
        analyze_symbol_logged self sym timeframe
        = ((Some df', ranking_analyze_symbol (ranking_analyzer self) df'),
           [CallFetch sym timeframe; CallAnalyzeData; CallDetectSignals; CallRanking]))
  /\ (fst (value (analyze_symbol_logged self sym timeframe)) = None ->
        snd (value (analyze_symbol_logged self sym timeframe)) = None).
Proof.
  unfold analyze_symbol_logged. repeat split.
  - intros ->. reflexivity.
  - intros df ->. reflexivity.
  - destruct (get_historical_data (data_fetcher self) sym timeframe);
      simpl; [discriminate | reflexivity].
Qed.

Lemma analyze_symbol_fetch_failure_witness :
  analyze_symbol_logged Fixtures.batch_ba "ZZZUSDT" "1h"
  = ((None, None), [CallFetch "ZZZUSDT" "1h"]).
Proof.
  apply (analyze_symbol_fetch_failure Fixtures.batch_ba "ZZZUSDT" "1h").
  vm_compute. reflexivity.
Defined.

(** ** Signal detector *)

Module SignalDetectorFacts.

Import SignalDetector.

Lemma count_true_le (l : list bool) : (count_true l <= List.length l)%nat.
Proof. unfold count_true. apply filter_length_le. Qed.

Lemma strength_of_nonneg (l : list bool) : 0 <= strength_of l.
Proof.
  unfold strength_of, Qdiv. apply Qmult_le_0_compat.
  - change 0 with (inject_Z 0). rewrite <- Zle_Qle. lia.
  - apply Qinv_le_0_compat. change 0 with (inject_Z 0). rewrite <- Zle_Qle. lia.
Qed.

Lemma strength_of_le_1 (l : list bool) : strength_of l <= 1.
Proof.
  unfold strength_of. pose proof (count_true_le l) as C.
  destruct (List.length l) as [|n] eqn:E.
  - assert (count_true l = 0%nat) as -> by lia. vm_compute. discriminate.
  - apply Qle_shift_div_r.
    + change 0 with (inject_Z 0). rewrite <- Zlt_Qlt. lia.
    + rewrite Qmult_1_l. rewrite <- Zle_Qle. lia.
Qed.

Lemma strength_of_monotone (l1 l2 : list bool) :
  List.length l1 = List.length l2 ->
  (count_true l1 <= count_true l2)%nat ->
  strength_of l1 <= strength_of l2.
Proof.
  intros L C. unfold strength_of, Qdiv. rewrite L.
  apply Qmult_le_compat_r.
  - rewrite <- Zle_Qle. lia.
  - apply Qinv_le_0_compat. change 0 with (inject_Z 0). rewrite <- Zle_Qle. lia.
Qed.

Lemma detect_from_nth (cfg : Config) (df rows : DataFrame) :
  forall k i,
    nth_error (detect_from cfg df k rows) i
    = option_map (detect_row cfg df (k + i)) (nth_error rows i).
Proof.
  induction rows as [|r rows IH]; intros k i.
  - destruct i; reflexivity.
  - destruct i as [|i]; simpl.
    + now rewrite Nat.add_0_r.
    + rewrite IH. now rewrite Nat.add_succ_r.
Qed.

Lemma detect_signals_nth (cfg : Config) (df : DataFrame) (i : nat) :
  nth_error (detect_signals cfg df) i
  = option_map (detect_row cfg df i) (nth_error df i).
Proof. unfold detect_signals. now rewrite detect_from_nth. Qed.

Lemma detect_signals_length (cfg : Config) (df : DataFrame) :
  List.length (detect_signals cfg df) = List.length df.
Proof.
  unfold detect_signals. generalize 0%nat. generalize df at 1 as d.
  induction df as [|r rows IH]; intros d k; simpl; [reflexivity|].
  now rewrite IH.
Qed.

(** What [detect_signals] writes into the row of bar [i]. *)
Lemma detected_row (cfg : Config) (df : DataFrame) (i : nat) (row : Row) :
  nth_error (detect_signals cfg df) i = Some row ->
  exists raw k,
    nth_error df i = Some raw
    /\ satisfied cfg df i = Some k
    /\ k = count_true (sub_conditions cfg df i raw)
    /\ signal_strength row = strength_of (sub_conditions cfg df i raw)
    /\ pre_pump_signal row = Nat.leb (min_count cfg) k.
Proof.
  rewrite detect_signals_nth. unfold satisfied.
  destruct (nth_error df i) as [raw|]; [|discriminate].
  simpl. intros H. injection H as <-.
  exists raw, (count_true (sub_conditions cfg df i raw)).
  repeat split.
Qed.

End SignalDetectorFacts.

(** C3, as stated, fails on the batch path: six bars reach the minimum
    count, and [latest_signals] keeps the last five of them, so the first
    qualifying bar has no event. *)
Lemma latest_signals_drops_qualifying_bar :
  ~ events_for_qualifying_bars Fixtures.cfg_one Fixtures.six_doji
      (latest_signals (SignalDetector.detect_signals Fixtures.cfg_one Fixtures.six_doji)).
Proof.
  intros H.
  destruct (H 0%nat
              (SignalDetector.detect_row Fixtures.cfg_one Fixtures.six_doji 0
                 (Fixtures.doji_bar 0 10)) eq_refl) as [_ Back].
  assert (I : In (SignalDetector.detect_row Fixtures.cfg_one Fixtures.six_doji 0
                    (Fixtures.doji_bar 0 10))
                (latest_signals
                   (SignalDetector.detect_signals Fixtures.cfg_one Fixtures.six_doji))).
  { apply Back. exists 1%nat. split; [reflexivity | apply Nat.le_refl]. }
  vm_compute in I.
  repeat (destruct I as [I|I]; [discriminate I|]). exact I.
Qed.

(** C3 (amended): the detector returns one row per bar and sets the
    pre-pump flag of a bar exactly when the bar satisfies at least the
    configured minimum count of sub-conditions; the signal list of
    [analyze_coin] holds one Signal Event per flagged bar, in bar order, and
    nothing for the other bars; the batch detector keeps only the last five
    flagged bars of a symbol; with a minimum count of at least one, a bar
    with zero satisfied sub-conditions produces no event. *)
Theorem signal_events_for_flagged_bars (cfg : SignalDetector.Config) (df : DataFrame) :
  let out := SignalDetector.detect_signals cfg df in
  List.length out = List.length df
  /\ collect_signals out = map signal_of_row (filter pre_pump_signal out)
  /\ events_for_qualifying_bars cfg df (filter pre_pump_signal out)
  /\ latest_signals out = tail 5 (filter pre_pump_signal out)
  /\ (forall i row,
        nth_error out i = Some row ->
        SignalDetector.satisfied cfg df i = Some 0%nat ->
        (1 <= SignalDetector.min_count cfg)%nat ->
        ~ In row (filter pre_pump_signal out)).
Proof.
  cbv zeta. repeat split.
  - apply SignalDetectorFacts.detect_signals_length.
  - unfold collect_signals. now destruct (SignalDetector.detect_signals cfg df).
  - intros I. apply filter_In in I. destruct I as [_ F].
    destruct (SignalDetectorFacts.detected_row _ _ _ _ H)
      as [raw [k [_ [Hk [_ [_ Hf]]]]]].
    exists k. split; [exact Hk|]. rewrite Hf in F. now apply Nat.leb_le.
  - intros [k [Hk Le]]. apply filter_In. split.
    + eapply nth_error_In; eassumption.
    + destruct (SignalDetectorFacts.detected_row _ _ _ _ H)
        as [raw [k' [_ [Hk' [_ [_ Hf]]]]]].
      rewrite Hk in Hk'. injection Hk' as <-. rewrite Hf. now apply Nat.leb_le.
  - intros i row H Z M I. apply filter_In in I. destruct I as [_ F].
    destruct (SignalDetectorFacts.detected_row _ _ _ _ H)
      as [raw [k [_ [Hk [_ [_ Hf]]]]]].
    rewrite Z in Hk. injection Hk as <-. rewrite Hf in F.
    apply Nat.leb_le in F. lia.
Qed.

Lemma signal_events_for_flagged_bars_witness :
  ~ In (SignalDetector.detect_row Fixtures.cfg_one Fixtures.one_doji 0
          (Fixtures.candle 0 10 11 9 10 5))
       (filter pre_pump_signal
          (SignalDetector.detect_signals Fixtures.cfg_one Fixtures.one_doji)).
Proof.
  destruct (signal_events_for_flagged_bars Fixtures.cfg_one Fixtures.one_doji)
    as [_ [_ [_ [_ H]]]].
  apply (H 0%nat).
  - reflexivity.
  - reflexivity.
  - simpl. lia.
Defined.

Lemma holds_count_reflect (bs : list bool) (Ps : list Prop) :
  Forall2 (fun b P => b = true <-> P) bs Ps ->
  holds_count Ps (SignalDetector.count_true bs).
Proof.
  induction 1 as [|b P bs Ps H F IH]; [constructor|].
  unfold SignalDetector.count_true in *. simpl.
  destruct b; simpl.
  - apply holds_yes; [now apply H | exact IH].
  - apply holds_no; [|exact IH]. intros HP. apply H in HP. discriminate.
Qed.

Lemma holds_count_unique (Ps : list Prop) (k k' : nat) :
  holds_count Ps k -> holds_count Ps k' -> k = k'.
Proof.
  intros H. revert k'.
  induction H as [|P Ps k HP H IH|P Ps k HP H IH]; intros k' H';
    inversion H'; subst; try contradiction;
    try reflexivity; try (f_equal; now apply IH); now apply IH.
Qed.

Lemma above_reflect (threshold : Q) (cell : option Q) :
  SignalDetector.above threshold cell = true
  <-> exists v, cell = Some v /\ threshold < v.
Proof.
  unfold SignalDetector.above. destruct cell as [v|].
  - rewrite negb_true_iff. split.
    + intros H. exists v. split; [reflexivity|].
      apply Qnot_le_lt. intros L. apply Qle_bool_iff in L. congruence.
    + intros [v' [E L]]. injection E as <-.
      destruct (Qle_bool v threshold) eqn:B; [|reflexivity].
      apply Qle_bool_iff in B. exfalso. apply (Qlt_irrefl v).
      eapply Qle_lt_trans; eassumption.
  - split; [discriminate | intros [v [E _]]; discriminate].
Qed.

Lemma inside_reflect (lo hi : Q) (cell : option Q) :
  SignalDetector.inside lo hi cell = true
  <-> exists v, cell = Some v /\ lo <= v /\ v <= hi.
Proof.
  unfold SignalDetector.inside. destruct cell as [v|].
  - rewrite andb_true_iff, !Qle_bool_iff. split.
    + intros H. now exists v.
    + intros [v' [E H]]. injection E as <-. exact H.
  - split; [discriminate | intros [v [E _]]; discriminate].
Qed.

Lemma any_pattern_reflect (row : Row) :
  SignalDetector.any_pattern row = true <-> pattern_holds row.
Proof.
  assert (F : forall cell,
             match cell with Some c => truthy c | None => false end = true
             <-> flag_set cell).
  { intros [c|]; unfold flag_set; split.
    - intros H. now exists c.
    - intros [c' [E H]]. now injection E as <-.
    - discriminate.
    - intros [c' [E _]]. discriminate. }
  unfold SignalDetector.any_pattern, pattern_holds, pattern_names.
  cbn [existsb]. rewrite !orb_true_iff.
  change (row_get_pattern row "hammer")
    with (match hammer row with Some c => truthy c | None => false end).
  change (row_get_pattern row "morning_star")
    with (match morning_star row with Some c => truthy c | None => false end).
  change (row_get_pattern row "engulfing")
    with (match engulfing row with Some c => truthy c | None => false end).
  change (row_get_pattern row "doji")
    with (match doji row with Some c => truthy c | None => false end).
  rewrite !F. intuition discriminate.
Qed.

Lemma sub_conditions_reflect (cfg : SignalDetector.Config) (df : DataFrame)
  (i : nat) (row : Row) :
  holds_count (holding cfg df i row)
    (SignalDetector.count_true (SignalDetector.sub_conditions cfg df i row)).
Proof.
  apply holds_count_reflect.
  unfold SignalDetector.sub_conditions, holding.
  constructor; [apply above_reflect|].
  constructor; [apply inside_reflect|].
  constructor; [unfold macd_holds; reflexivity|].
  constructor; [unfold squeeze_holds; reflexivity|].
  constructor; [apply any_pattern_reflect | constructor].
Qed.

(** C4: for every bar, the signal strength written by the detector is the
    number of sub-conditions that hold for the bar divided by the number of
    sub-conditions considered (five); it lies in [0, 1], also on every Signal
    Event, and a bar for which at least as many sub-conditions hold as for
    another has at least its strength. *)
Theorem signal_strength_is_fraction (cfg : SignalDetector.Config) (df : DataFrame) :
  let out := SignalDetector.detect_signals cfg df in
  (forall i row,
     nth_error out i = Some row ->
     exists raw k,
       nth_error df i = Some raw
       /\ holds_count (holding cfg df i raw) k
       /\ signal_strength row = inject_Z (Z.of_nat k) / inject_Z 5
       /\ 0 <= signal_strength row /\ signal_strength row <= 1)
  /\ (forall ev, In ev (collect_signals out) ->
        0 <= ev_strength ev /\ ev_strength ev <= 1)
  /\ (forall i j ri rj rawi rawj ki kj,
        nth_error out i = Some ri -> nth_error out j = Some rj ->
        nth_error df i = Some rawi -> nth_error df j = Some rawj ->
        holds_count (holding cfg df i rawi) ki ->
        holds_count (holding cfg df j rawj) kj ->
        (ki <= kj)%nat ->
        signal_strength ri <= signal_strength rj).
Proof.
  cbv zeta.
  assert (B : forall i row,
             nth_error (SignalDetector.detect_signals cfg df) i = Some row ->
             0 <= signal_strength row /\ signal_strength row <= 1).
  { intros i row H.
    destruct (SignalDetectorFacts.detected_row _ _ _ _ H)
      as [raw [k [_ [_ [_ [Hs _]]]]]].
    rewrite Hs. split.
    - apply SignalDetectorFacts.strength_of_nonneg.
    - apply SignalDetectorFacts.strength_of_le_1. }
  split; [|split].
  - intros i row H.
    destruct (SignalDetectorFacts.detected_row _ _ _ _ H)
      as [raw [k [Hraw [_ [Ek [Hs _]]]]]].
    exists raw, k. split; [exact Hraw|]. split.
    + rewrite Ek. apply sub_conditions_reflect.
    + split; [|now apply (B i)]. rewrite Hs, Ek. reflexivity.
  - intros ev H. unfold collect_signals in H.
    destruct (SignalDetector.detect_signals cfg df) as [|r0 rs] eqn:E; [contradiction|].
    apply in_map_iff in H. destruct H as [row [<- I]].
    apply filter_In in I. destruct I as [I _].
    apply In_nth_error in I. destruct I as [i Hi].
    simpl. now apply (B i).
  - intros i j ri rj rawi rawj ki kj Hi Hj Ri Rj Ki Kj Le.
    destruct (SignalDetectorFacts.detected_row _ _ _ _ Hi)
      as [rawi' [k1 [Ri' [_ [E1 [Hs1 _]]]]]].
    destruct (SignalDetectorFacts.detected_row _ _ _ _ Hj)
      as [rawj' [k2 [Rj' [_ [E2 [Hs2 _]]]]]].
    rewrite Ri in Ri'. injection Ri' as <-.
    rewrite Rj in Rj'. injection Rj' as <-.
    pose proof (holds_count_unique _ _ _ Ki (sub_conditions_reflect cfg df i rawi)) as U1.
    pose proof (holds_count_unique _ _ _ Kj (sub_conditions_reflect cfg df j rawj)) as U2.
    rewrite Hs1, Hs2.
    apply SignalDetectorFacts.strength_of_monotone; [reflexivity | lia].
Qed.

Lemma signal_strength_is_fraction_witness :
  signal_strength
    (SignalDetector.detect_row Fixtures.cfg_one Fixtures.one_doji 0
       (Fixtures.candle 0 10 11 9 10 5))
  <= signal_strength
       (SignalDetector.detect_row Fixtures.cfg_one Fixtures.one_doji 1
          (Fixtures.doji_bar 1 10)).
Proof.
  destruct (signal_strength_is_fraction Fixtures.cfg_one Fixtures.one_doji)
    as [_ [_ H]].
  apply (H 0%nat 1%nat _ _ (Fixtures.candle 0 10 11 9 10 5) (Fixtures.doji_bar 1 10)
           0%nat 1%nat); try reflexivity.
  - apply (sub_conditions_reflect Fixtures.cfg_one Fixtures.one_doji 0
             (Fixtures.candle 0 10 11 9 10 5)).
  - apply (sub_conditions_reflect Fixtures.cfg_one Fixtures.one_doji 1
             (Fixtures.doji_bar 1 10)).
  - lia.
Defined.

(** ** RSI *)

Module MomentumFacts.

Import Momentum.

Lemma Qsum_nonneg (l : list Q) :
  (forall x, In x l -> 0 <= x) -> 0 <= Qsum l.
Proof.
  induction l as [|x l IH]; intros H; simpl.
  - apply Qle_refl.
  - assert (0 <= x) by (apply H; now left).
    assert (0 <= Qsum l) by (apply IH; intros y Hy; apply H; now right).
    lra.
Qed.

Lemma gain_nonneg (d : Q) : 0 <= gain d.
Proof. unfold gain. apply Q.le_max_r. Qed.

Lemma loss_nonneg (d : Q) : 0 <= loss d.
Proof. unfold loss. apply Q.le_max_r. Qed.

Lemma average_nonneg (n : nat) (l : list Q) :
  (forall x, In x l -> 0 <= x) -> 0 <= average n l.
Proof.
  intros H. unfold average, Qdiv. apply Qmult_le_0_compat.
  - now apply Qsum_nonneg.
  - apply Qinv_le_0_compat. change 0 with (inject_Z 0). rewrite <- Zle_Qle. lia.
Qed.

Lemma average_gain_nonneg (n i : nat) (closes : list Q) :
  0 <= average_gain n i closes.
Proof.
  unfold average_gain. apply average_nonneg.
  intros x Hx. apply in_map_iff in Hx. destruct Hx as [d [<- _]].
  apply gain_nonneg.
Qed.

Lemma average_loss_nonneg (n i : nat) (closes : list Q) :
  0 <= average_loss n i closes.
Proof.
  unfold average_loss. apply average_nonneg.
  intros x Hx. apply in_map_iff in Hx. destruct Hx as [d [<- _]].
  apply loss_nonneg.
Qed.

(** The oscillator formula stays inside [0, 100]. *)
Lemma oscillator_bounds (g l : Q) :
  0 <= g -> 0 < l ->
  0 <= 100 - 100 / (1 + g / l) /\ 100 - 100 / (1 + g / l) <= 100.
Proof.
  intros Hg Hl.
  assert (R : 0 <= g / l).
  { apply Qle_shift_div_l; [exact Hl | lra]. }
  assert (D : 0 < 1 + g / l) by lra.
  assert (U : 100 / (1 + g / l) <= 100).
  { apply Qle_shift_div_r; [exact D | lra]. }
  assert (L : 0 <= 100 / (1 + g / l)).
  { apply Qle_shift_div_l; [exact D | lra]. }
  split; lra.
Qed.

Lemma rsi_at_warm_up (n : nat) (closes : list Q) (i : nat) :
  (i < n)%nat -> rsi_at n closes i = None.
Proof.
  intros H. unfold rsi_at. apply Nat.ltb_lt in H. now rewrite H.
Qed.

Lemma rsi_at_defined (n : nat) (closes : list Q) (i : nat) :
  (n <= i)%nat ->
  exists v, rsi_at n closes i = Some v
            /\ 0 <= v /\ v <= 100
            /\ (average_loss n i closes == 0 -> v = 100).
Proof.
  intros H. unfold rsi_at.
  assert (F : Nat.ltb i n = false) by (apply Nat.ltb_ge; exact H).
  rewrite F.
  destruct (Qeq_bool (average_loss n i closes) 0) eqn:E.
  - exists 100. repeat split; try lra.
  - apply Qeq_bool_neq in E.
    pose proof (average_loss_nonneg n i closes) as Ll.
    pose proof (average_gain_nonneg n i closes) as Lg.
    assert (P : 0 < average_loss n i closes).
    { apply Qle_lteq in Ll. destruct Ll as [Lt|Eq]; [exact Lt|].
      exfalso. apply E. now symmetry. }
    destruct (oscillator_bounds _ _ Lg P) as [B1 B2].
    eexists. repeat split; try eassumption.
    intros Z. contradiction.
Qed.

Lemma nth_error_map_seq {A : Type} (f : nat -> A) (len : nat) :
  forall a i,
    nth_error (map f (seq a len)) i
    = if Nat.ltb i len then Some (f (a + i)%nat) else None.
Proof.
  induction len as [|len IH]; intros a i; simpl.
  - destruct i; reflexivity.
  - destruct i as [|i]; simpl.
    + now rewrite Nat.add_0_r.
    + rewrite IH. change (Nat.ltb (S i) (S len)) with (Nat.ltb i len).
      now rewrite Nat.add_succ_r.
Qed.

Lemma rsi_column_nth (n : nat) (df : DataFrame) (i : nat) :
  nth_error (rsi_column n df) i
  = if Nat.ltb i (List.length df) then Some (rsi_at n (map close df) i) else None.
Proof. unfold rsi_column. now rewrite nth_error_map_seq. Qed.

End MomentumFacts.

(** C9: the RSI column has one cell per bar; at every bar past the warm-up
    window of the lookback the RSI is defined and lies in [0, 100], and it is
    100 whenever the average loss over the lookback is zero; a series shorter
    than the lookback has the RSI undefined at every bar. *)
Theorem rsi_defined_and_bounded (n : nat) (df : DataFrame) :
  List.length (Momentum.rsi_column n df) = List.length df
  /\ (forall i, (n <= i)%nat -> (i < List.length df)%nat ->
        exists v,
          nth_error (Momentum.rsi_column n df) i = Some (Some v)
          /\ 0 <= v /\ v <= 100
          /\ (Momentum.average_loss n i (map close df) == 0 -> v = 100))
  /\ (forall i cell, (i < n)%nat ->
        nth_error (Momentum.rsi_column n df) i = Some cell -> cell = None)
  /\ ((List.length df < n)%nat ->
        forall i cell,
          nth_error (Momentum.rsi_column n df) i = Some cell -> cell = None).
Proof.
  assert (W : forall i cell, (i < n)%nat ->
                nth_error (Momentum.rsi_column n df) i = Some cell -> cell = None).
  { intros i cell Lt H. rewrite MomentumFacts.rsi_column_nth in H.
    destruct (Nat.ltb i (List.length df)); [|discriminate].
    injection H as <-. now apply MomentumFacts.rsi_at_warm_up. }
  repeat split.
  - unfold Momentum.rsi_column. now rewrite length_map, length_seq.
  - intros i Ge Lt.
    destruct (MomentumFacts.rsi_at_defined n (map close df) i Ge)
      as [v [E [B1 [B2 Z]]]].
    exists v. rewrite MomentumFacts.rsi_column_nth.
    apply Nat.ltb_lt in Lt. rewrite Lt, E. repeat split; assumption.
  - exact W.
  - intros Short i cell H. apply (W i cell); [|exact H].
    assert (i < List.length (Momentum.rsi_column n df))%nat
      by (apply nth_error_Some; congruence).
    unfold Momentum.rsi_column in *. rewrite length_map, length_seq in *. lia.
Qed.

Lemma rsi_defined_and_bounded_witness :
  exists v,
    nth_error (Momentum.rsi_column 2 Fixtures.rising) 2 = Some (Some v)
    /\ 0 <= v /\ v <= 100
    /\ (Momentum.average_loss 2 2 (map close Fixtures.rising) == 0 -> v = 100).
Proof.
  destruct (rsi_defined_and_bounded 2 Fixtures.rising) as [_ [H _]].
  apply (H 2%nat).
  - apply Nat.le_refl.
  - simpl. lia.
Defined.

(** ** Fibonacci position *)

Module FibonacciFacts.

Import Fibonacci.




End FibonacciFacts.



(** ** Volume profile *)

Module VolumeProfileFacts.

Import Momentum VolumeProfile.

(** *** Sums *)

Lemma Qsum_app (l1 l2 : list Q) : Qsum (l1 ++ l2) == Qsum l1 + Qsum l2.
Proof.
  induction l1 as [|x l1 IH]; simpl; [ring|]. rewrite IH. ring.
Qed.

Lemma Qsum_map_ext {A : Type} (f g : A -> Q) (l : list A) :
  (forall x, In x l -> f x == g x) -> Qsum (map f l) == Qsum (map g l).
Proof.
  induction l as [|x l IH]; intros H; simpl; [reflexivity|].
  rewrite (H x (or_introl eq_refl)), IH; [reflexivity|].
  intros y Hy. apply H. now right.
Qed.

Lemma Qsum_map_scale {A : Type} (f : A -> Q) (k : Q) (l : list A) :
  Qsum (map (fun x => f x * k) l) == Qsum (map f l) * k.
Proof.
  induction l as [|x l IH]; simpl; [ring|]. rewrite IH. ring.
Qed.

Lemma Qsum_map_plus {A : Type} (f g : A -> Q) (l : list A) :
  Qsum (map (fun x => f x + g x) l) == Qsum (map f l) + Qsum (map g l).
Proof.
  induction l as [|x l IH]; simpl; [ring|]. rewrite IH. ring.
Qed.

(** A sum of consecutive differences telescopes. *)
Lemma Qsum_telescope (F : nat -> Q) (n : nat) :
  Qsum (map (fun i => F (S i) - F i) (seq 0 n)) == F n - F 0%nat.
Proof.
  induction n as [|n IH].
  - simpl. ring.
  - rewrite seq_S, map_app, Qsum_app, IH. simpl. ring.
Qed.

(** A sum that picks out a single index. *)
Lemma Qsum_single (k n : nat) (v : Q) :
  (k < n)%nat ->
  Qsum (map (fun i => if Nat.eqb i k then v else 0) (seq 0 n)) == v.
Proof.
  induction n as [|n IH]; intros H; [lia|].
  rewrite seq_S, map_app, Qsum_app. simpl.
  destruct (Nat.eqb n k) eqn:E.
  - apply Nat.eqb_eq in E. subst k.
    rewrite (Qsum_map_ext _ (fun _ => 0)).
    + assert (Z : forall m, Qsum (map (fun _ : nat => 0) m) == 0).
      { induction m; simpl; [reflexivity|]. rewrite IHm. ring. }
      rewrite Z. ring.
    + intros x Hx. apply in_seq in Hx.
      destruct (Nat.eqb x n) eqn:E'; [|reflexivity].
      apply Nat.eqb_eq in E'. lia.
  - apply Nat.eqb_neq in E. rewrite IH by lia. ring.
Qed.

(** *** The price range *)

Lemma fold_Qmin_le (l : list Q) :
  forall a, fold_left Qmin l a <= a
            /\ forall x, In x l -> fold_left Qmin l a <= x.
Proof.
  induction l as [|y l IH]; intros a; simpl.
  - split; [apply Qle_refl | contradiction].
  - destruct (IH (Qmin a y)) as [H1 H2]. split.
    + eapply Qle_trans; [exact H1 | apply Q.le_min_l].
    + intros x [<-|Hx].
      * eapply Qle_trans; [exact H1 | apply Q.le_min_r].
      * now apply H2.
Qed.

Lemma fold_Qmax_ge (l : list Q) :
  forall a, a <= fold_left Qmax l a
            /\ forall x, In x l -> x <= fold_left Qmax l a.
Proof.
  induction l as [|y l IH]; intros a; simpl.
  - split; [apply Qle_refl | contradiction].
  - destruct (IH (Qmax a y)) as [H1 H2]. split.
    + eapply Qle_trans; [apply Q.le_max_l | exact H1].
    + intros x [<-|Hx].
      * eapply Qle_trans; [apply Q.le_max_r | exact H1].
      * now apply H2.
Qed.

Lemma min_low_le (df : DataFrame) (c : Row) :
  In c df -> min_low df <= low c.
Proof.
  destruct df as [|c0 rest]; [contradiction|]. simpl.
  destruct (fold_Qmin_le (map low rest) (low c0)) as [H1 H2].
  intros [<-|H]; [exact H1|]. apply H2. now apply in_map.
Qed.

Lemma max_high_ge (df : DataFrame) (c : Row) :
  In c df -> high c <= max_high df.
Proof.
  destruct df as [|c0 rest]; [contradiction|]. simpl.
  destruct (fold_Qmax_ge (map high rest) (high c0)) as [H1 H2].
  intros [<-|H]; [exact H1|]. apply H2. now apply in_map.
Qed.

Lemma range_nonneg (df : DataFrame) :
  well_formed df -> min_low df <= max_high df.
Proof.
  intros W. destruct df as [|c rest]; [apply Qle_refl|].
  eapply Qle_trans; [apply (min_low_le _ c); now left|].
  eapply Qle_trans; [apply W; now left|].
  apply max_high_ge. now left.
Qed.

(** *** The grid *)

Lemma bins_nonzero (n : nat) : (0 < n)%nat -> ~ inject_Z (Z.of_nat n) == 0.
Proof.
  intros H E. change 0 with (inject_Z 0) in E.
  apply (proj1 (inject_Z_injective _ _)) in E. lia.
Qed.

Lemma width_nonneg (cfg : Config) (df : DataFrame) :
  well_formed df -> 0 <= g_width (grid_of cfg df).
Proof.
  intros W. pose proof (range_nonneg df W) as R.
  unfold grid_of. cbn [g_width]. unfold Qdiv. apply Qmult_le_0_compat.
  - lra.
  - apply Qinv_le_0_compat. change 0 with (inject_Z 0). rewrite <- Zle_Qle. lia.
Qed.

Lemma edge_first (g : Grid) : edge g 0 == g_lo g.
Proof. unfold edge. simpl. ring. Qed.

Lemma edge_last (cfg : Config) (df : DataFrame) :
  (0 < bins cfg)%nat -> edge (grid_of cfg df) (bins cfg) == max_high df.
Proof.
  intros H. unfold edge, grid_of. cbn [g_lo g_width g_bins]. field.
  now apply bins_nonzero.
Qed.

Lemma edge_step (g : Grid) (i : nat) : edge g (S i) == edge g i + g_width g.
Proof.
  unfold edge. rewrite Nat2Z.inj_succ. unfold Z.succ. rewrite inject_Z_plus. ring.
Qed.

Lemma edge_mono (g : Grid) (i j : nat) :
  0 <= g_width g -> (i <= j)%nat -> edge g i <= edge g j.
Proof.
  intros W. induction 1 as [|j L IH]; [apply Qle_refl|].
  rewrite edge_step. lra.
Qed.

Lemma midpoint_between (g : Grid) (i : nat) :
  0 <= g_width g -> edge g i <= midpoint g i /\ midpoint g i <= edge g (S i).
Proof.
  intros W. unfold midpoint. pose proof (edge_step g i) as E.
  assert (M : (edge g i + edge g (S i)) / 2 == edge g i + g_width g * (1 # 2)).
  { rewrite E. field. }
  rewrite M, E. split; lra.
Qed.

(** *** Splitting one candle over the bins *)

Lemma overlap_clamp (a b lo hi : Q) :
  a <= b -> lo <= hi ->
  overlap a b lo hi == clamp lo hi b - clamp lo hi a.
Proof.
  intros Hab Hlh. unfold overlap, clamp. split_minmax; lra.
Qed.

Lemma clamp_below (lo hi x : Q) : x <= lo -> lo <= hi -> clamp lo hi x == lo.
Proof. intros H1 H2. unfold clamp. split_minmax; lra. Qed.

Lemma clamp_above (lo hi x : Q) : hi <= x -> lo <= hi -> clamp lo hi x == hi.
Proof. intros H1 H2. unfold clamp. split_minmax; lra. Qed.

Lemma point_bin_lt (g : Grid) (p : Q) :
  (0 < g_bins g)%nat -> (point_bin g p < g_bins g)%nat.
Proof. intros H. unfold point_bin. lia. Qed.

Lemma share_sum (cfg : Config) (df : DataFrame) (c : Row) :
  (0 < bins cfg)%nat -> well_formed df -> In c df ->
  Qsum (map (share (grid_of cfg df) c) (seq 0 (bins cfg))) == volume c.
Proof.
  intros N W I. set (g := grid_of cfg df).
  destruct (Qle_bool (high c) (low c)) eqn:E.
  - rewrite (Qsum_map_ext _
               (fun i => if Nat.eqb i (point_bin g (low c)) then volume c else 0)).
    + apply Qsum_single. apply (point_bin_lt g). exact N.
    + intros i _. unfold share. rewrite E. reflexivity.
  - assert (R : low c < high c).
    { apply Qnot_le_lt. intros L. apply Qle_bool_iff in L. congruence. }
    pose proof (width_nonneg cfg df W) as Wd. fold g in Wd.
    rewrite (Qsum_map_ext _
               (fun i => (clamp (low c) (high c) (edge g (S i))
                          - clamp (low c) (high c) (edge g i))
                         * (/ (high c - low c) * volume c))).
    + rewrite Qsum_map_scale.
      rewrite (Qsum_telescope (fun i => clamp (low c) (high c) (edge g i))).
      rewrite clamp_above, clamp_below.
      * field. lra.
      * rewrite edge_first. apply (min_low_le df c I).
      * lra.
      * unfold g. rewrite (edge_last cfg df N). apply (max_high_ge df c I).
      * lra.
    + intros i _. unfold share. rewrite E.
      rewrite overlap_clamp.
      * unfold Qdiv. ring.
      * apply edge_mono; [exact Wd | lia].
      * lra.
Qed.

Lemma bin_volume_cons (g : Grid) (c : Row) (l : DataFrame) (i : nat) :
  bin_volume g (c :: l) i = share g c i + bin_volume g l i.
Proof. reflexivity. Qed.

Lemma histogram_sum_sub (cfg : Config) (df l : DataFrame) :
  (0 < bins cfg)%nat -> well_formed df -> (forall c, In c l -> In c df) ->
  Qsum (map (bin_volume (grid_of cfg df) l) (seq 0 (bins cfg))) == total_volume l.
Proof.
  intros N W. induction l as [|c l IH]; intros Sub.
  - unfold total_volume. simpl.
    induction (seq 0 (bins cfg)) as [|i s IHs]; simpl; [reflexivity|].
    rewrite IHs. unfold bin_volume. simpl. ring.
  - rewrite (Qsum_map_ext _
               (fun i => share (grid_of cfg df) c i
                         + bin_volume (grid_of cfg df) l i)).
    + rewrite Qsum_map_plus, IH, share_sum; try assumption.
      * unfold total_volume. simpl. reflexivity.
      * apply Sub. now left.
      * intros x Hx. apply Sub. now right.
    + intros i _. rewrite bin_volume_cons. reflexivity.
Qed.

Lemma histogram_sum (cfg : Config) (df : DataFrame) :
  (0 < bins cfg)%nat -> well_formed df ->
  Qsum (histogram cfg df) == total_volume df.
Proof.
  intros N W. unfold histogram. apply histogram_sum_sub; auto.
Qed.

Lemma histogram_length (cfg : Config) (df : DataFrame) :
  List.length (histogram cfg df) = bins cfg.
Proof. unfold histogram. now rewrite length_map, length_seq. Qed.

(** *** Point of control and value area *)

Lemma argmax_from_range (l : list Q) :
  forall best bestv i,
    argmax_from best bestv i l = best
    \/ (i <= argmax_from best bestv i l < i + List.length l)%nat.
Proof.
  induction l as [|x l IH]; intros best bestv i; simpl; [now left|].
  destruct (Qle_bool x bestv).
  - destruct (IH best bestv (S i)) as [E|R]; [now left | right; lia].
  - destruct (IH i x (S i)) as [E|R]; right; lia.
Qed.

Lemma argmax_lt (l : list Q) : (0 < List.length l)%nat -> (argmax l < List.length l)%nat.
Proof.
  destruct l as [|x l]; simpl; [lia|]. intros _.
  destruct (argmax_from_range l 0%nat x 1%nat) as [E|R]; lia.
Qed.

Lemma poc_bin_lt (cfg : Config) (df : DataFrame) :
  (0 < bins cfg)%nat -> (poc_bin cfg df < bins cfg)%nat.
Proof.
  intros N. unfold poc_bin.
  pose proof (argmax_lt (histogram cfg df)) as H.
  rewrite histogram_length in H. now apply H.
Qed.

Lemma in_windows (n p size : nat) (a : Area) :
  (1 <= size)%nat ->
  In a (windows n p size) <-> contains_bin n p a /\ area_size a = size.
Proof.
  intros S. unfold windows, contains_bin, area_size.
  rewrite in_map_iff. split.
  - intros [lo [<- H]]. apply filter_In in H. destruct H as [_ H].
    rewrite !andb_true_iff, !Nat.leb_le, Nat.ltb_lt in H.
    cbn [a_lo a_hi]. lia.
  - intros [[H1 [H2 H3]] H4]. exists (a_lo a). split.
    + destruct a as [lo hi]. cbn [a_lo a_hi] in *. f_equal. lia.
    + apply filter_In. split; [apply in_seq; lia|].
      rewrite !andb_true_iff, !Nat.leb_le, Nat.ltb_lt. lia.
Qed.

(** The search returns a reaching set of the least size that has one. *)
Lemma smallest_reaching_some {sel : Selection} (hist : list Q) (g : Grid) (cc target : Q) (n p : nat)
  (a : Area) (len : nat) :
  forall start,
    smallest_reaching hist g cc target n p (seq start len) = Some a ->
    exists size,
      (start <= size < start + len)%nat
      /\ In a (filter (reaches hist target) (windows n p size))
      /\ forall size', (start <= size' < size)%nat ->
           filter (reaches hist target) (windows n p size') = [].
Proof.
  induction len as [|len IH]; intros start H; [discriminate|].
  cbn [seq smallest_reaching] in H.
  destruct (pick hist g cc (filter (reaches hist target) (windows n p start)))
    as [b|] eqn:B.
  - injection H as <-. exists start. split; [lia|]. split.
    + eapply pick_in; eassumption.
    + intros size' R. lia.
  - apply pick_none in B. destruct (IH (S start) H) as [size [R [I M]]].
    exists size. split; [lia|]. split; [exact I|].
    intros size' R'. destruct (Nat.eq_dec size' start) as [->|N]; [exact B|].
    apply M. lia.
Qed.



Lemma value_area_contains {sel : Selection} (cfg : Config) (df : DataFrame) :
  (0 < bins cfg)%nat ->
  contains_bin (bins cfg) (poc_bin cfg df) (value_area cfg df).
Proof.
  intros N. unfold value_area.
  destruct (smallest_reaching _ _ _ _ _ _ _) as [a|] eqn:E.
  - apply smallest_reaching_some in E. destruct E as [size [R [I _]]].
    apply filter_In in I. destruct I as [I _].
    apply in_windows in I; [tauto | lia].
  - pose proof (poc_bin_lt cfg df N). unfold contains_bin. cbn [a_lo a_hi]. lia.
Qed.


End VolumeProfileFacts.

(** C6: the per-bin volumes of the histogram add up to the total volume of
    the series, and the reported point of control lies between the reported
    value-area low and high (candles have [low <= high]; at least one bin). *)
Theorem volume_profile_conserves_volume {sel : VolumeProfile.Selection}
  (cfg : VolumeProfile.Config) (df : DataFrame) :
  (0 < VolumeProfile.bins cfg)%nat ->
  VolumeProfile.well_formed df ->
  Momentum.Qsum (VolumeProfile.histogram cfg df) == VolumeProfile.total_volume df
  /\ val (VolumeProfile.analyze cfg df) <= vpoc (VolumeProfile.analyze cfg df)
  /\ vpoc (VolumeProfile.analyze cfg df) <= vah (VolumeProfile.analyze cfg df).
Proof.
  intros N W. split; [now apply VolumeProfileFacts.histogram_sum|].
  unfold VolumeProfile.analyze.
  destruct (Qeq_bool (VolumeProfile.max_high df) (VolumeProfile.min_low df)).
  - simpl. split; apply Qle_refl.
  - cbn [val vpoc vah].
    pose proof (VolumeProfileFacts.width_nonneg cfg df W) as Wd.
    destruct (VolumeProfileFacts.value_area_contains cfg df N) as [H1 [H2 H3]].
    destruct (VolumeProfileFacts.midpoint_between
                (VolumeProfile.grid_of cfg df) (VolumeProfile.poc_bin cfg df) Wd)
      as [M1 M2].
    split.
    + eapply Qle_trans; [|exact M1].
      now apply VolumeProfileFacts.edge_mono.
    + eapply Qle_trans; [exact M2|].
      apply VolumeProfileFacts.edge_mono; [exact Wd | lia].
Qed.

Lemma skewed_well_formed : VolumeProfile.well_formed Fixtures.skewed.
Proof.
  intros c H. simpl in H.
  repeat (destruct H as [<-|H]; [vm_compute; discriminate|]). contradiction.
Qed.

Lemma volume_profile_conserves_volume_witness :
  Momentum.Qsum (VolumeProfile.histogram Fixtures.cfg_five Fixtures.skewed)
  == VolumeProfile.total_volume Fixtures.skewed
  /\ val (VolumeProfile.analyze (sel := most_volume_then_closest)
            Fixtures.cfg_five Fixtures.skewed)
     <= vpoc (VolumeProfile.analyze (sel := most_volume_then_closest)
            Fixtures.cfg_five Fixtures.skewed)
  /\ vpoc (VolumeProfile.analyze (sel := most_volume_then_closest)
            Fixtures.cfg_five Fixtures.skewed)
     <= vah (VolumeProfile.analyze (sel := most_volume_then_closest)
            Fixtures.cfg_five Fixtures.skewed).
Proof.
  apply (volume_profile_conserves_volume (sel := most_volume_then_closest)
           Fixtures.cfg_five Fixtures.skewed).
  - simpl. lia.
  - exact skewed_well_formed.
Defined.



(** * Further properties of the two files *)

(** ** [format_symbol] *)

Lemma index_cons (s1 : string) (c : Ascii.ascii) (s2 : string) :
  String.index 0 s1 (String c s2)
  = if String.prefix s1 (String c s2) then Some 0%nat
    else match String.index 0 s1 s2 with
         | Some n => Some (S n)
         | None => None
         end.
Proof. reflexivity. Qed.

Lemma index_slash_found (a b : string) :
  String.index 0 "/" (String.append a (String.append "/" b)) <> None.
Proof.
  induction a as [|c a IH].
  - change (String.append "" (String.append "/" b)) with (String (Ascii.ascii_of_nat 47) b).
    rewrite index_cons.
    assert (P : String.prefix "/" (String (Ascii.ascii_of_nat 47) b) = true).
    { apply String.prefix_correct. destruct b; reflexivity. }
    rewrite P. discriminate.
  - change (String.append (String c a) (String.append "/" b))
      with (String c (String.append a (String.append "/" b))).
    rewrite index_cons.
    destruct (String.prefix "/" _); [discriminate|].
    destruct (String.index 0 "/" (String.append a (String.append "/" b)));
      [discriminate | exact IH].
Qed.

Lemma substring_all (s : string) :
  forall m, (String.length s <= m)%nat -> String.substring 0 m s = s.
Proof.
  induction s as [|c s IH]; intros m H.
  - destruct m; reflexivity.
  - destruct m as [|m]; simpl in *; [lia|]. f_equal. apply IH. lia.
Qed.

Lemma substring_split (s : string) :
  forall k m, (String.length s <= k + m)%nat ->
    String.append (String.substring 0 k s) (String.substring k m s) = s.
Proof.
  induction s as [|c s IH]; intros k m H.
  - destruct k, m; reflexivity.
  - destruct k as [|k].
    + change (String.substring 0 0 (String c s)) with EmptyString.
      change (String.append EmptyString (String.substring 0 m (String c s)))
        with (String.substring 0 m (String c s)).
      now apply substring_all.
    + simpl. f_equal. apply IH. simpl in H. lia.
Qed.

Lemma substring_length (s : string) :
  forall k m, String.length (String.substring k m s)
              = Nat.min m (String.length s - k).
Proof.
  induction s as [|c s IH]; intros k m.
  - destruct k, m; reflexivity.
  - destruct k as [|k].
    + destruct m as [|m]; simpl; [reflexivity|].
      rewrite IH. now rewrite Nat.sub_0_r.
    + simpl. apply IH.
Qed.

(** X1: the formatted symbol always contains a slash, a symbol that already
    has one is left as it is, and formatting twice is the same as formatting
    once. *)
Theorem format_symbol_idempotent (sym : string) :
  has_slash (format_symbol sym) = true
  /\ (has_slash sym = true -> format_symbol sym = sym)
  /\ format_symbol (format_symbol sym) = format_symbol sym.
Proof.
  assert (K : forall s, has_slash s = true -> format_symbol s = s).
  { intros s H. unfold has_slash in H. unfold format_symbol.
    destruct (String.index 0 "/" s); [reflexivity | discriminate]. }
  assert (S : has_slash (format_symbol sym) = true).
  { unfold has_slash.
    destruct (String.index 0 "/" (format_symbol sym)) eqn:E'; [reflexivity|].
    exfalso. unfold format_symbol in E'.
    destruct (String.index 0 "/" sym) as [i|] eqn:E.
    - congruence.
    - revert E'. apply index_slash_found. }
  split; [exact S|]. split; [apply K|]. now apply K.
Qed.

Lemma format_symbol_idempotent_witness :
  format_symbol "BTC/USDT" = "BTC/USDT".
Proof.
  destruct (format_symbol_idempotent "BTC/USDT") as [_ [H _]].
  apply H. reflexivity.
Defined.

(** X2: a symbol without a slash is cut before its last four characters:
    the result is base, slash, quote, where base followed by quote is the
    symbol itself and quote has four characters (the whole symbol when it is
    shorter than four). *)
Theorem format_symbol_splits_quote (sym : string) :
  has_slash sym = false ->
  exists base quote,
    format_symbol sym = String.append base (String.append "/" quote)
    /\ String.append base quote = sym
    /\ String.length quote = Nat.min 4 (String.length sym).
Proof.
  intros H. unfold has_slash in H. unfold format_symbol.
  destruct (String.index 0 "/" sym); [discriminate|].
  exists (String.substring 0 (String.length sym - 4) sym),
         (String.substring (String.length sym - 4) 4 sym).
  split; [reflexivity|]. split.
  - apply substring_split. lia.
  - rewrite substring_length. lia.
Qed.

Lemma format_symbol_splits_quote_witness :
  exists base quote,
    format_symbol "TRUMPUSDT" = String.append base (String.append "/" quote)
    /\ String.append base quote = "TRUMPUSDT"
    /\ String.length quote = Nat.min 4 (String.length "TRUMPUSDT").
Proof.
  apply (format_symbol_splits_quote "TRUMPUSDT"). reflexivity.
Defined.

(** ** Signal events of [analyze_coin] *)

Lemma collect_signals_filter (df : DataFrame) :
  collect_signals df = map signal_of_row (filter pre_pump_signal df).
Proof. now destruct df. Qed.

Lemma filter_nil_iff {A : Type} (f : A -> bool) (l : list A) :
  filter f l = [] <-> forall x, In x l -> f x = false.
Proof.
  induction l as [|x l IH]; simpl.
  - split; [intros _ y [] | reflexivity].
  - destruct (f x) eqn:E; split.
    + discriminate.
    + intros H. specialize (H x (or_introl eq_refl)). congruence.
    + intros H y [<-|Hy]; [exact E | now apply IH].
    + intros H. apply IH. intros y Hy. apply H. now right.
Qed.

(** X3: a signal event lists a pattern exactly when the row has that
    pattern column and its cell counts as true in a condition (a true
    boolean, NaN or a non-zero number); the listed names are drawn from the
    four pattern names, without repetition. *)
Theorem signal_patterns_listed (row : Row) :
  (In "hammer" (ev_patterns (signal_of_row row))
   <-> exists c, hammer row = Some c /\ truthy c = true)
  /\ (In "morning_star" (ev_patterns (signal_of_row row))
      <-> exists c, morning_star row = Some c /\ truthy c = true)
  /\ (In "engulfing" (ev_patterns (signal_of_row row))
      <-> exists c, engulfing row = Some c /\ truthy c = true)
  /\ (In "doji" (ev_patterns (signal_of_row row))
      <-> exists c, doji row = Some c /\ truthy c = true)
  /\ (forall p, In p (ev_patterns (signal_of_row row)) -> In p pattern_names)
  /\ NoDup (ev_patterns (signal_of_row row)).
Proof.
  assert (K : forall p cell,
             In p pattern_names ->
             row_get_pattern row p
             = match cell with Some c => truthy c | None => false end ->
             (In p (ev_patterns (signal_of_row row))
              <-> exists c, cell = Some c /\ truthy c = true)).
  { intros p cell Hp Hg. unfold signal_of_row. cbn [ev_patterns].
    rewrite filter_In, Hg. split.
    - intros [_ H]. destruct cell as [c|]; [|discriminate]. now exists c.
    - intros [c [-> H]]. now split. }
  repeat split.
  1-8: apply K; try reflexivity; unfold pattern_names; simpl; auto.
  - intros p H. unfold signal_of_row in H. cbn [ev_patterns] in H.
    apply filter_In in H. tauto.
  - unfold signal_of_row. cbn [ev_patterns]. apply NoDup_filter.
    unfold pattern_names.
    repeat constructor; simpl; intuition discriminate.
Qed.

(** X4: the signal list is built bar by bar: over a frame split around one
    row it is the events before, then one event if that row is flagged and
    none otherwise, then the events after; it is empty exactly when no row is
    flagged, and never longer than the frame. *)
Theorem collect_signals_bar_by_bar (before after : DataFrame) (row : Row) :
  collect_signals (before ++ row :: after)
  = collect_signals before
    ++ (if pre_pump_signal row then [signal_of_row row] else [])
    ++ collect_signals after
  /\ (List.length (collect_signals (before ++ row :: after))
      <= List.length (before ++ row :: after))%nat
  /\ (collect_signals (before ++ row :: after) = []
      <-> forall r, In r (before ++ row :: after) -> pre_pump_signal r = false).
Proof.
  repeat split.
  - rewrite !collect_signals_filter, filter_app, map_app. simpl.
    destruct (pre_pump_signal row); reflexivity.
  - rewrite collect_signals_filter, length_map. apply filter_length_le.
  - rewrite collect_signals_filter. intros H.
    apply map_eq_nil in H. now apply filter_nil_iff.
  - intros H. rewrite collect_signals_filter.
    apply (proj2 (filter_nil_iff _ _)) in H. now rewrite H.
Qed.

(** ** The latest signals of the batch detector *)

Lemma tail_length {A : Type} (n : nat) (l : list A) :
  List.length (tail n l) = Nat.min n (List.length l).
Proof. unfold tail. rewrite length_skipn. lia. Qed.

Lemma tail_suffix {A : Type} (n : nat) (l : list A) :
  firstn (List.length l - n) l ++ tail n l = l.
Proof. unfold tail. apply firstn_skipn. Qed.

Lemma tail_app {A : Type} (n : nat) (l1 l2 : list A) :
  (n <= List.length l2)%nat -> tail n (l1 ++ l2) = tail n l2.
Proof.
  intros H. unfold tail. rewrite length_app, skipn_app.
  rewrite skipn_all2 by lia. simpl. f_equal. lia.
Qed.

Lemma latest_signals_flagged (df : DataFrame) (row : Row) :
  In row (latest_signals df) -> In row df /\ pre_pump_signal row = true.
Proof.
  intros H. apply filter_In. unfold latest_signals in H.
  rewrite <- (tail_suffix 5 (filter pre_pump_signal df)).
  apply in_or_app. now right.
Qed.

(** X5: the latest signals of a frame are its last five flagged rows (all
    of them when there are fewer): every kept row is a flagged row of the
    frame, the flagged rows are some earlier ones followed by the kept ones,
    and nothing is kept exactly when no row is flagged. *)
Theorem latest_signals_last_five (df : DataFrame) :
  List.length (latest_signals df)
  = Nat.min 5 (List.length (filter pre_pump_signal df))
  /\ (exists earlier, filter pre_pump_signal df = earlier ++ latest_signals df)
  /\ (forall row, In row (latest_signals df) ->
        In row df /\ pre_pump_signal row = true)
  /\ (latest_signals df = [] <-> forall row, In row df -> pre_pump_signal row = false).
Proof.
  unfold latest_signals.
  pose proof (tail_suffix 5 (filter pre_pump_signal df)) as S.
  split; [apply tail_length|]. split.
  - eexists. symmetry. exact S.
  - split.
    + intros row H. apply filter_In. rewrite <- S. apply in_or_app. now right.
    + rewrite <- filter_nil_iff. split.
      * intros E. pose proof (tail_length 5 (filter pre_pump_signal df)) as L.
        rewrite E in L. simpl in L.
        destruct (filter pre_pump_signal df); [reflexivity | simpl in L; lia].
      * intros ->. reflexivity.
Qed.

(** X6: older bars do not matter once the recent ones hold five flagged
    rows: the latest signals of a frame extended at the front are those of
    the recent part alone. *)
Theorem latest_signals_ignore_older (older recent : DataFrame) :
  (5 <= List.length (filter pre_pump_signal recent))%nat ->
  latest_signals (older ++ recent) = latest_signals recent.
Proof.
  intros H. unfold latest_signals. rewrite filter_app. now apply tail_app.
Qed.

Lemma latest_signals_ignore_older_witness :
  latest_signals
    (SignalDetector.detect_signals Fixtures.cfg_one Fixtures.one_doji
     ++ SignalDetector.detect_signals Fixtures.cfg_one Fixtures.six_doji)
  = latest_signals (SignalDetector.detect_signals Fixtures.cfg_one Fixtures.six_doji).
Proof.
  apply latest_signals_ignore_older. vm_compute. repeat constructor.
Defined.

(** ** The two outputs of the batch run *)

Lemma loop_body_signal_group (detector : PrePumpDetector) (acc : Acc) (sym : string) :
  all_signals (loop_body detector acc sym)
  = all_signals acc ++ signal_group detector sym.
Proof.
  unfold loop_body, signal_group.
  destruct (analyze_symbol detector sym) as [[df|] [rk|]];
    try (now rewrite app_nil_r).
  destruct (latest_signals df); simpl; [now rewrite app_nil_r | reflexivity].
Qed.

Lemma run_loop_signal_groups (detector : PrePumpDetector) (symbols : list string) :
  all_signals (run_loop detector symbols)
  = flat_map (signal_group detector) symbols.
Proof.
  unfold run_loop.
  assert (G : forall acc,
             all_signals (fold_left (loop_body detector) symbols acc)
             = all_signals acc ++ flat_map (signal_group detector) symbols).
  { induction symbols as [|s rest IH]; intros acc; simpl.
    - now rewrite app_nil_r.
    - rewrite IH, loop_body_signal_group, <- app_assoc. reflexivity. }
  now rewrite G.
Qed.

Lemma signal_group_nil (detector : PrePumpDetector) (sym : string) :
  signal_group detector sym = [] <-> signals_detected detector sym = false.
Proof.
  unfold signal_group, signals_detected.
  destruct (analyze_symbol detector sym) as [[df|] [rk|]]; try tauto.
  destruct (latest_signals df); split; (reflexivity || discriminate).
Qed.

Lemma flat_map_nil_iff {A B : Type} (f : A -> list B) (l : list A) :
  flat_map f l = [] <-> forall x, In x l -> f x = [].
Proof.
  induction l as [|x l IH]; simpl.
  - split; [intros _ y [] | reflexivity].
  - split.
    + intros H. apply app_eq_nil in H. destruct H as [H1 H2].
      intros y [<-|Hy]; [exact H1 | now apply IH].
    + intros H. rewrite (H x (or_introl eq_refl)). simpl.
      apply IH. intros y Hy. apply H. now right.
Qed.

(** [main] in closed form. *)
Lemma main_closed_form {kind : SortValues} (detector : PrePumpDetector) :
  let symbols := get_all_usdt_pairs (data_fetcher detector) in
  main detector
  = match flat_map (signal_group detector) symbols with
    | [] => None
    | _ :: _ =>
        Some {| combined_signals := List.concat (flat_map (signal_group detector) symbols);
                rankings_df := sort_values_desc (collected detector) |}
    end.
Proof.
  cbv zeta. unfold main, collected.
  destruct (get_all_usdt_pairs (data_fetcher detector)) as [|s rest]; [reflexivity|].
  rewrite run_loop_signal_groups, run_loop_rankings. reflexivity.
Qed.

Lemma main_output {kind : SortValues} (detector : PrePumpDetector) (out : RunOutput) :
  main detector = Some out ->
  combined_signals out
  = List.concat (flat_map (signal_group detector)
                   (get_all_usdt_pairs (data_fetcher detector)))
  /\ rankings_df out = sort_values_desc (collected detector).
Proof.
  rewrite main_closed_form.
  destruct (flat_map (signal_group detector) _); [discriminate|].
  intros H. injection H as <-. split; reflexivity.
Qed.

(** X7: the run writes nothing exactly when no symbol of the batch has a
    flagged bar in a completed pipeline (in particular for an empty
    batch). *)
Theorem main_writes_nothing_iff {kind : SortValues} (detector : PrePumpDetector) :
  main detector = None
  <-> forall s, In s (get_all_usdt_pairs (data_fetcher detector)) ->
                signals_detected detector s = false.
Proof.
  rewrite main_closed_form.
  destruct (flat_map (signal_group detector) _) as [|x xs] eqn:E.
  - split; [|reflexivity]. intros _ s Hs.
    apply signal_group_nil. revert s Hs. now apply flat_map_nil_iff.
  - split; [discriminate|]. intros H. exfalso.
    assert (N : flat_map (signal_group detector)
                  (get_all_usdt_pairs (data_fetcher detector)) = []).
    { apply flat_map_nil_iff. intros s Hs. apply signal_group_nil. now apply H. }
    congruence.
Qed.

Lemma signal_group_rows (detector : PrePumpDetector) (sym : string) :
  (List.length (signal_group detector sym) = List.length (contribution detector sym))
  /\ (List.length (contribution detector sym)
      <= List.length (List.concat (signal_group detector sym))
      <= 5 * List.length (contribution detector sym))%nat.
Proof.
  unfold signal_group, contribution.
  destruct (analyze_symbol detector sym) as [[df|] [rk|]]; simpl; try lia.
  assert (L : (List.length (latest_signals df) <= 5)%nat).
  { unfold latest_signals. rewrite tail_length. apply Nat.le_min_l. }
  destruct (latest_signals df) as [|r l] eqn:E; simpl; [lia|].
  rewrite app_nil_r, length_map. cbn [List.length] in L. lia.
Qed.

Lemma contribution_count (detector : PrePumpDetector) (symbols : list string) :
  List.length (flat_map (contribution detector) symbols)
  = List.length (filter (signals_detected detector) symbols).
Proof.
  induction symbols as [|s rest IH]; simpl; [reflexivity|].
  rewrite length_app, IH, contribution_length.
  destruct (signals_detected detector s); simpl; lia.
Qed.

(** X8: when the run writes its output, the ranking has one row for each
    batch entry with detected signals, at least one, and the signal table
    has between one and five rows for each ranking row. *)
Theorem main_output_sizes {kind : SortValues} (detector : PrePumpDetector) (out : RunOutput) :
  main detector = Some out ->
  List.length (rankings_df out)
  = List.length (filter (signals_detected detector)
                   (get_all_usdt_pairs (data_fetcher detector)))
  /\ (1 <= List.length (rankings_df out))%nat
  /\ (List.length (rankings_df out) <= List.length (combined_signals out)
      <= 5 * List.length (rankings_df out))%nat.
Proof.
  intros H. destruct (main_output _ _ H) as [-> ->].
  rewrite (Permutation_length (sort_values_desc_perm _)).
  unfold collected. rewrite length_map.
  assert (B : forall symbols,
             (List.length (flat_map (contribution detector) symbols)
              <= List.length (List.concat (flat_map (signal_group detector) symbols))
              <= 5 * List.length (flat_map (contribution detector) symbols))%nat).
  { induction symbols as [|s rest IH]; simpl; [lia|].
    rewrite concat_app, !length_app.
    destruct (signal_group_rows detector s) as [_ G]. lia. }
  assert (P : (1 <= List.length
                      (flat_map (contribution detector)
                         (get_all_usdt_pairs (data_fetcher detector))))%nat).
  { rewrite main_closed_form in H.
    assert (G : forall symbols,
               List.length (flat_map (signal_group detector) symbols)
               = List.length (flat_map (contribution detector) symbols)).
    { induction symbols as [|s rest IH]; simpl; [reflexivity|].
      rewrite !length_app, IH. destruct (signal_group_rows detector s) as [-> _].
      reflexivity. }
    rewrite <- G.
    destruct (flat_map (signal_group detector) _); [discriminate | simpl; lia]. }
  split; [apply contribution_count|]. split; [exact P | apply B].
Qed.

Lemma main_output_sizes_witness :
  exists out,
    main (kind := insertion_kind) Fixtures.batch_by_length = Some out
    /\ (List.length (rankings_df out) <= List.length (combined_signals out)
        <= 5 * List.length (rankings_df out))%nat.
Proof.
  eexists. split; [reflexivity|].
  apply (main_output_sizes Fixtures.batch_by_length _ eq_refl).
Defined.

Lemma signals_detected_iff (detector : PrePumpDetector) (s : string) :
  signals_detected detector s = true
  <-> exists df rk, analyze_symbol detector s = (Some df, Some rk)
                    /\ latest_signals df <> [].
Proof.
  unfold signals_detected.
  destruct (analyze_symbol detector s) as [[df|] [rk|]].
  - destruct (latest_signals df) eqn:E; split.
    + discriminate.
    + intros [df' [rk' [H N]]]. injection H as <- <-. congruence.
    + intros _. exists df, rk. split; [reflexivity|]. congruence.
    + reflexivity.
  - split; [discriminate | intros [? [? [H _]]]; discriminate].
  - split; [discriminate | intros [? [? [H _]]]; discriminate].
  - split; [discriminate | intros [? [? [H _]]]; discriminate].
Qed.

Lemma in_contribution (detector : PrePumpDetector) (s : string) (r : Ranking) :
  In r (contribution detector s)
  <-> exists df rk, analyze_symbol detector s = (Some df, Some rk)
                    /\ latest_signals df <> []
                    /\ r = set_symbol s rk.
Proof.
  unfold contribution.
  destruct (analyze_symbol detector s) as [[df|] [rk|]].
  - destruct (latest_signals df) eqn:E; split.
    + contradiction.
    + intros [df' [rk' [H [N _]]]]. injection H as <- <-. congruence.
    + intros [<-|[]]. exists df, rk. repeat split; congruence.
    + intros [df' [rk' [H [_ ->]]]]. injection H as <- <-. now left.
  - split; [contradiction | intros [? [? [H _]]]; discriminate].
  - split; [contradiction | intros [? [? [H _]]]; discriminate].
  - split; [contradiction | intros [? [? [H _]]]; discriminate].
Qed.

Lemma in_signal_group (detector : PrePumpDetector) (s s' : string) (row : Row) :
  In (s', row) (List.concat (signal_group detector s))
  <-> s' = s /\ exists df rk, analyze_symbol detector s = (Some df, Some rk)
                              /\ In row (latest_signals df).
Proof.
  unfold signal_group.
  destruct (analyze_symbol detector s) as [[df|] [rk|]].
  - assert (K : In (s', row) (map (fun r => (s, r)) (latest_signals df))
                <-> s' = s /\ In row (latest_signals df)).
    { rewrite in_map_iff. split.
      - intros [r [E I]]. injection E as <- <-. now split.
      - intros [-> I]. now exists row. }
    destruct (latest_signals df) as [|r0 l] eqn:E.
    + simpl. split; [contradiction|].
      intros [_ [df' [rk' [H I]]]]. injection H as <- <-. now rewrite E in I.
    + cbn [List.concat]. rewrite app_nil_r, K. split.
      * intros [-> I]. split; [reflexivity|]. exists df, rk.
        split; [reflexivity | now rewrite E].
      * intros [-> [df' [rk' [H I]]]]. injection H as <- <-.
        rewrite E in I. now split.
  - simpl. split; [contradiction | intros [_ [? [? [H _]]]]; discriminate].
  - simpl. split; [contradiction | intros [_ [? [? [H _]]]]; discriminate].
  - simpl. split; [contradiction | intros [_ [? [? [H _]]]]; discriminate].
Qed.

Lemma in_signal_groups (detector : PrePumpDetector) (symbols : list string)
  (s : string) (row : Row) :
  In (s, row) (List.concat (flat_map (signal_group detector) symbols))
  <-> In s symbols
      /\ exists df rk, analyze_symbol detector s = (Some df, Some rk)
                       /\ In row (latest_signals df).
Proof.
  induction symbols as [|x rest IH]; simpl.
  - tauto.
  - rewrite concat_app, in_app_iff, IH, in_signal_group. split.
    + intros [[-> H]|[I H]]; split; auto.
    + intros [[->|I] H]; [left | right]; split; auto.
Qed.

(** X9: when the run writes its output, the signal table holds the pair of
    a symbol and a row exactly when the symbol is in the batch, its pipeline
    completed and the row is one of the latest signals of its analysed
    frame; every row of the table carries the pre-pump flag. *)
Theorem combined_signals_rows {kind : SortValues} (detector : PrePumpDetector) (out : RunOutput) :
  main detector = Some out ->
  forall s row,
    (In (s, row) (combined_signals out)
     <-> In s (get_all_usdt_pairs (data_fetcher detector))
         /\ exists df rk, analyze_symbol detector s = (Some df, Some rk)
                          /\ In row (latest_signals df))
    /\ (In (s, row) (combined_signals out) -> pre_pump_signal row = true).
Proof.
  intros H s row. destruct (main_output _ _ H) as [-> _].
  split; [apply in_signal_groups|].
  intros I. apply in_signal_groups in I. destruct I as [_ [df [rk [_ I]]]].
  now apply (latest_signals_flagged df).
Qed.

Lemma combined_signals_rows_witness :
  exists out,
    main (kind := insertion_kind) Fixtures.batch_by_length = Some out
    /\ forall row, In ("AAAUSDT", row) (combined_signals out) ->
                   pre_pump_signal row = true.
Proof.
  eexists. split; [reflexivity|].
  intros row. apply (combined_signals_rows Fixtures.batch_by_length _ eq_refl).
Defined.

Lemma in_ranking_output {kind : SortValues} (detector : PrePumpDetector) (r : RankingRow) :
  In r (ranking_output detector)
  <-> exists s df rk,
        In s (get_all_usdt_pairs (data_fetcher detector))
        /\ analyze_symbol detector s = (Some df, Some rk)
        /\ latest_signals df <> []
        /\ r = add_total_score (set_symbol s rk).
Proof.
  rewrite ranking_output_sorted_collected.
  assert (P : In r (sort_values_desc (collected detector))
              <-> In r (collected detector)).
  { split; apply Permutation_in;
      [apply sort_values_desc_perm | apply Permutation_sym, sort_values_desc_perm]. }
  rewrite P. unfold collected. rewrite in_map_iff. split.
  - intros [rk0 [<- I]]. apply in_flat_map in I. destruct I as [s [Hs I]].
    apply in_contribution in I. destruct I as [df [rk [E [N ->]]]].
    exists s, df, rk. repeat split; assumption.
  - intros [s [df [rk [Hs [E [N ->]]]]]].
    exists (set_symbol s rk). split; [reflexivity|].
    apply in_flat_map. exists s. split; [exact Hs|].
    apply in_contribution. exists df, rk. repeat split; assumption.
Qed.

(** X10: a ranking row is put out exactly for a batch symbol whose pipeline
    completed with at least one latest signal; the row carries that batch
    symbol (whatever symbol entry the analyzer left in its result), the
    analyzer's scores unchanged, and their total score as its score
    column. *)
Theorem ranking_rows_characterised {kind : SortValues} (detector : PrePumpDetector) (r : RankingRow) :
  In r (ranking_output detector)
  <-> exists s df rk,
        In s (get_all_usdt_pairs (data_fetcher detector))
        /\ analyze_symbol detector s = (Some df, Some rk)
        /\ latest_signals df <> []
        /\ r = {| rr_ranking := {| symbol := Some s; scores := scores rk |};
                  rr_total_score := total_score (scores rk) |}.
Proof. apply in_ranking_output. Qed.

(** X11: the signal table and the ranking name the same symbols: a symbol
    has rows in the signal table exactly when it has a ranking row. *)
Theorem outputs_name_same_symbols {kind : SortValues} (detector : PrePumpDetector) (out : RunOutput) :
  main detector = Some out ->
  forall s,
    In s (map fst (combined_signals out))
    <-> In (Some s) (map rr_symbol (rankings_df out)).
Proof.
  intros H s.
  assert (R : rankings_df out = ranking_output detector).
  { unfold ranking_output. now rewrite H. }
  destruct (main_output _ _ H) as [C _].
  rewrite R, C. rewrite !in_map_iff. split.
  - intros [[s' row] [E I]]. simpl in E. subst s'.
    apply in_signal_groups in I.
    destruct I as [Hs [df [rk [Ea I]]]].
    exists (add_total_score (set_symbol s rk)).
    split; [reflexivity|].
    apply in_ranking_output. exists s, df, rk.
    repeat split; try assumption. intros N. now rewrite N in I.
  - intros [r [E I]]. apply in_ranking_output in I.
    destruct I as [s' [df [rk [Hs [Ea [N ->]]]]]].
    unfold rr_symbol in E. simpl in E. injection E as ->.
    destruct (latest_signals df) as [|row l] eqn:L; [congruence|].
    exists (s, row). split; [reflexivity|].
    apply in_signal_groups. split; [exact Hs|].
    exists df, rk. split; [exact Ea|]. rewrite L. now left.
Qed.

Lemma outputs_name_same_symbols_witness :
  exists out,
    main (kind := insertion_kind) Fixtures.batch_with_quiet = Some out
    /\ (In "QQQUSDT" (map fst (combined_signals out))
        <-> In (Some "QQQUSDT") (map rr_symbol (rankings_df out))).
Proof.
  eexists. split; [reflexivity|].
  apply (outputs_name_same_symbols Fixtures.batch_with_quiet _ eq_refl).
Defined.

(** X12: the first row of the ranking has the highest total score of the
    run. *)
Theorem first_rank_has_highest_score {kind : SortValues} (detector : PrePumpDetector)
  (top : RankingRow) (rest : list RankingRow) :
  ranking_output detector = top :: rest ->
  forall r, In r (ranking_output detector) ->
            rr_total_score r <= rr_total_score top.
Proof.
  intros E r I.
  pose proof (sort_values_desc_sorted (collected detector)) as S.
  rewrite <- ranking_output_sorted_collected, E in S.
  rewrite E in I. inversion S as [|? ? _ F]; subst.
  destruct I as [<-|I]; [apply Qle_refl|].
  rewrite Forall_forall in F. now apply F.
Qed.

Lemma first_rank_has_highest_score_witness :
  rr_total_score
    (add_total_score (set_symbol "AAAUSDT"
       {| symbol := None;
          scores := {| total_score := inject_Z 2; component_scores := [] |} |}))
  <= inject_Z 6.
Proof.
  apply (first_rank_has_highest_score (kind := insertion_kind)
           Fixtures.batch_by_length
           (add_total_score (set_symbol "BBBUSDT"
              {| symbol := None;
                 scores := {| total_score := inject_Z 6; component_scores := [] |} |}))
           [add_total_score (set_symbol "AAAUSDT"
              {| symbol := None;
                 scores := {| total_score := inject_Z 2; component_scores := [] |} |})]).
  - vm_compute. reflexivity.
  - right. left. vm_compute. reflexivity.
Defined.

(** ** Failing, absent, reordered and repeated symbols *)

Lemma analyze_symbol_failed_fetch (t : string) (detector : PrePumpDetector) (s : string) :
  analyze_symbol (with_failed_fetch t detector) s
  = if String.eqb s t then (None, None) else analyze_symbol detector s.
Proof.
  unfold analyze_symbol, analyze_symbol_logged. simpl.
  destruct (String.eqb s t); reflexivity.
Qed.

Lemma flat_map_skip {B : Type} (f f' : string -> list B) (t : string)
  (l : list string) :
  f' t = [] -> (forall s, s <> t -> f' s = f s) ->
  flat_map f' l = flat_map f (filter (fun x => negb (String.eqb x t)) l).
Proof.
  intros Ht Hs. induction l as [|x l IH]; simpl; [reflexivity|].
  destruct (String.eqb x t) eqn:E; simpl.
  - apply String.eqb_eq in E. subst x. now rewrite Ht.
  - apply String.eqb_neq in E. now rewrite (Hs x E), IH.
Qed.

(** X13: a symbol whose fetch yields no data is, for the whole output of
    the run, the same as a symbol that is not in the batch. *)
Theorem failed_fetch_same_as_absent {kind : SortValues} (t : string) (detector : PrePumpDetector) :
  main (with_failed_fetch t detector) = main (without_symbol t detector).
Proof.
  rewrite !main_closed_form. unfold collected.
  change (get_all_usdt_pairs (data_fetcher (with_failed_fetch t detector)))
    with (get_all_usdt_pairs (data_fetcher detector)).
  change (get_all_usdt_pairs (data_fetcher (without_symbol t detector)))
    with (filter (fun x => negb (String.eqb x t))
            (get_all_usdt_pairs (data_fetcher detector))).
  rewrite (flat_map_skip (signal_group (without_symbol t detector))
             (signal_group (with_failed_fetch t detector)) t).
  - rewrite (flat_map_skip (contribution (without_symbol t detector))
               (contribution (with_failed_fetch t detector)) t).
    + reflexivity.
    + unfold contribution. rewrite analyze_symbol_failed_fetch.
      now rewrite String.eqb_refl.
    + intros s N. unfold contribution. rewrite analyze_symbol_failed_fetch.
      apply String.eqb_neq in N. now rewrite N.
  - unfold signal_group. rewrite analyze_symbol_failed_fetch.
    now rewrite String.eqb_refl.
  - intros s N. unfold signal_group. rewrite analyze_symbol_failed_fetch.
    apply String.eqb_neq in N. now rewrite N.
Qed.

(** X14: running the same detector over a reordered batch gives the same
    ranking rows, reordered. *)
Theorem reordered_batch_same_rows {kind : SortValues} (detector : PrePumpDetector) (symbols : list string) :
  Permutation symbols (get_all_usdt_pairs (data_fetcher detector)) ->
  Permutation (ranking_output (with_symbols symbols detector))
              (ranking_output detector).
Proof.
  intros P. rewrite !ranking_output_sorted_collected.
  rewrite !sort_values_desc_perm. unfold collected.
  apply Permutation_map.
  change (get_all_usdt_pairs (data_fetcher (with_symbols symbols detector)))
    with symbols.
  change (contribution (with_symbols symbols detector))
    with (contribution detector).
  now apply Permutation_flat_map.
Qed.

Lemma reordered_batch_same_rows_witness :
  Permutation
    (ranking_output (kind := insertion_kind) (with_symbols ["BBBUSDT"; "AAAUSDT"] Fixtures.batch_by_length))
    (ranking_output (kind := insertion_kind) Fixtures.batch_by_length).
Proof.
  apply (reordered_batch_same_rows Fixtures.batch_by_length ["BBBUSDT"; "AAAUSDT"]).
  apply perm_swap.
Defined.

(** X15: a symbol listed several times in the batch is analysed each time:
    with detected signals it gets as many ranking rows as it has entries in
    the batch, all equal, and otherwise none. *)
Theorem repeated_symbol_repeated_rows {kind : SortValues} (detector : PrePumpDetector) (s : string) :
  List.length (records_of s (ranking_output detector))
  = (if signals_detected detector s
     then count_occ string_dec (get_all_usdt_pairs (data_fetcher detector)) s
     else 0%nat)
  /\ forall r r', In r (records_of s (ranking_output detector)) ->
                  In r' (records_of s (ranking_output detector)) -> r = r'.
Proof.
  rewrite records_of_output. split.
  - rewrite rows_from_count, contribution_length.
    destruct (signals_detected detector s); lia.
  - intros r r' I I'.
    apply in_flat_map in I, I'.
    destruct I as [x [_ I]]. destruct I' as [x' [_ I']].
    unfold rows_from in I, I'.
    destruct (String.eqb s x); [|contradiction].
    destruct (String.eqb s x'); [|contradiction].
    apply in_map_iff in I, I'.
    destruct I as [k [<- I]]. destruct I' as [k' [<- I']].
    f_equal. eapply contribution_unique; eassumption.
Qed.

(** ** Outcomes of [analyze_coin] *)

Lemma iloc_last_none (df : DataFrame) : iloc_last df = None <-> df = [].
Proof.
  unfold iloc_last. split.
  - destruct (rev df) eqn:E; [|discriminate]. intros _.
    apply (f_equal (@rev Row)) in E. now rewrite rev_involutive in E.
  - intros ->. reflexivity.
Qed.

Lemma iloc_last_some (df : DataFrame) :
  (0 < List.length df)%nat -> exists last, iloc_last df = Some last.
Proof.
  intros H. destruct (iloc_last df) as [r|] eqn:E; [now exists r|].
  apply iloc_last_none in E. subst df. simpl in H. lia.
Qed.

Lemma analyze_coin_on_frame (an : Analyzers) (env : Env) (sym : string)
  (timeframe : option string) (limit : option Z) (lim : Z) (r : Row) (df : DataFrame) :
  resolve_limit env limit = Returned lim ->
  an_data_fetcher an (format_symbol sym) (resolve_timeframe env timeframe) lim
  = Some (r :: df) ->
  exists fib vol fund,
    analyze_coin an env sym timeframe limit
    = match iloc_last (coin_frame an (r :: df)) with
      | None => Raised
      | Some last =>
          Returned (Some
            {| res_symbol := format_symbol sym;
               current_price := close last;
               technical_indicators :=
                 {| ti_trend_strength := trend_strength last;
                    ti_rsi := rsi last;
                    ti_macd := macd last;
                    ti_macd_signal := macd_signal last;
                    ti_bb_upper := bb_upper last;
                    ti_bb_lower := bb_lower last;
                    ti_atr := atr last |};
               fibonacci_levels := fib;
               volume_profile := vol;
               fundamental_metrics := fund;
               signals :=
                 collect_signals
                   (detect_signals (an_signal an) (coin_frame an (r :: df))) |})
      end.
Proof.
  intros L F. unfold analyze_coin. rewrite L, F.
  eexists _, _, _. reflexivity.
Qed.

Lemma analyze_coin_no_limit (an : Analyzers) (env : Env) (sym : string)
  (timeframe : option string) (limit : option Z) :
  resolve_limit env limit = Raised ->
  analyze_coin an env sym timeframe limit = Raised.
Proof. intros L. unfold analyze_coin. now rewrite L. Qed.

Lemma analyze_coin_no_data (an : Analyzers) (env : Env) (sym : string)
  (timeframe : option string) (limit : option Z) (lim : Z) :
  resolve_limit env limit = Returned lim ->
  (an_data_fetcher an (format_symbol sym) (resolve_timeframe env timeframe) lim = None
   \/ an_data_fetcher an (format_symbol sym) (resolve_timeframe env timeframe) lim
      = Some []) ->
  analyze_coin an env sym timeframe limit = Returned None.
Proof.
  intros L [F|F]; unfold analyze_coin; now rewrite L, F.
Qed.

(** X16: [analyze_coin] fetches under the formatted symbol, with a missing
    or empty timeframe and a missing or zero limit replaced from the
    environment.  It returns no result exactly when that fetch yields nothing
    or an empty frame; it raises exactly when the limit has to come from the
    environment and [int] rejects it, or when a non-empty frame was fetched
    and the analysis stages hand back an empty one; a result carries the
    formatted symbol, the close of the last analysed row as current price,
    and the events of the detected frame. *)
Theorem analyze_coin_outcomes (an : Analyzers) (env : Env) (sym : string)
  (timeframe : option string) (limit : option Z) :
  let fetched := fun lim =>
    an_data_fetcher an (format_symbol sym) (resolve_timeframe env timeframe) lim in
  (analyze_coin an env sym timeframe limit = Returned None
   <-> exists lim, resolve_limit env limit = Returned lim
                   /\ (fetched lim = None \/ fetched lim = Some []))
  /\ (analyze_coin an env sym timeframe limit = Raised
      <-> resolve_limit env limit = Raised
          \/ exists lim df, resolve_limit env limit = Returned lim
                            /\ fetched lim = Some df /\ df <> []
                            /\ coin_frame an df = [])
  /\ (forall res,
        analyze_coin an env sym timeframe limit = Returned (Some res) ->
        exists lim df last,
          resolve_limit env limit = Returned lim
          /\ fetched lim = Some df /\ df <> []
          /\ iloc_last (coin_frame an df) = Some last
          /\ res_symbol res = format_symbol sym
          /\ current_price res = close last
          /\ signals res
             = collect_signals (detect_signals (an_signal an) (coin_frame an df))).
Proof.
  cbv zeta.
  destruct (resolve_limit env limit) as [lim|] eqn:L.
  - destruct (an_data_fetcher an (format_symbol sym)
                (resolve_timeframe env timeframe) lim) as [[|r df]|] eqn:F.
    + rewrite (analyze_coin_no_data an env sym timeframe limit lim L (or_intror F)).
      repeat split.
      * intros _. exists lim. split; [reflexivity|]. right. exact F.
      * discriminate.
      * intros [H|[lim' [df [H [F' [N _]]]]]]; [discriminate|].
        injection H as <-. rewrite F in F'. injection F' as <-. congruence.
      * discriminate.
    + destruct (analyze_coin_on_frame an env sym timeframe limit lim r df L F)
        as [fib [vol [fund E]]].
      rewrite E.
      destruct (iloc_last (coin_frame an (r :: df))) as [last|] eqn:I.
      * repeat split.
        -- discriminate.
        -- intros [lim' [H [F'|F']]]; injection H as <-; rewrite F in F'; discriminate.
        -- discriminate.
        -- intros [H|[lim' [df' [H [F' [_ Z]]]]]]; [discriminate|].
           injection H as <-. rewrite F in F'. injection F' as <-.
           apply iloc_last_none in Z. congruence.
        -- intros res H. injection H as <-.
           exists lim, (r :: df), last. repeat split; try assumption. discriminate.
      * repeat split.
        -- discriminate.
        -- intros [lim' [H [F'|F']]]; injection H as <-; rewrite F in F'; discriminate.
        -- intros _. right. exists lim, (r :: df).
           repeat split; try assumption; [discriminate|].
           now apply iloc_last_none.
        -- discriminate.
    + rewrite (analyze_coin_no_data an env sym timeframe limit lim L (or_introl F)).
      repeat split.
      * intros _. exists lim. split; [reflexivity|]. left. exact F.
      * discriminate.
      * intros [H|[lim' [df [H [F' _]]]]]; [discriminate|].
        injection H as <-. rewrite F in F'. discriminate.
      * discriminate.
  - rewrite (analyze_coin_no_limit an env sym timeframe limit L).
    repeat split.
    + discriminate.
    + intros [lim [H _]]. discriminate.
    + intros _. now left.
    + discriminate.
Qed.

(** X17: when the limit is given or [int] accepts the environment's value,
    and every analysis stage returns as many rows as it is given,
    [analyze_coin] does not raise: on a non-empty fetched frame it returns a
    result for the formatted symbol. *)
Theorem analyze_coin_returns (an : Analyzers) (env : Env) (sym : string)
  (timeframe : option string) (limit : option Z) (lim : Z) (df : DataFrame) :
  keeps_rows (ta_analyze_trend (an_technical an)) ->
  keeps_rows (ta_analyze_momentum (an_technical an)) ->
  keeps_rows (ta_analyze_volatility (an_technical an)) ->
  keeps_rows (ta_detect_candle_patterns (an_technical an)) ->
  keeps_rows (fa_analyze_volume (an_fundamental an)) ->
  keeps_rows (fa_analyze_trend (an_fundamental an)) ->
  keeps_rows (analyze_data (an_signal an)) ->
  resolve_limit env limit = Returned lim ->
  an_data_fetcher an (format_symbol sym) (resolve_timeframe env timeframe) lim
  = Some df ->
  df <> [] ->
  exists res, analyze_coin an env sym timeframe limit = Returned (Some res)
              /\ res_symbol res = format_symbol sym.
Proof.
  intros K1 K2 K3 K4 K5 K6 K7 L F N.
  destruct df as [|r df]; [congruence|].
  destruct (analyze_coin_on_frame an env sym timeframe limit lim r df L F)
    as [fib [vol [fund E]]].
  rewrite E.
  assert (P : (0 < List.length (coin_frame an (r :: df)))%nat).
  { unfold coin_frame. rewrite K7, K6, K5, K4, K3, K2, K1. simpl. lia. }
  destruct (iloc_last_some _ P) as [last ->].
  eexists. split; reflexivity.
Qed.

Lemma analyze_coin_returns_witness :
  exists res, analyze_coin CoinFixtures.analyzers CoinFixtures.bare_env "BTCUSDT"
                None None
              = Returned (Some res)
              /\ res_symbol res = format_symbol "BTCUSDT".
Proof.
  apply (analyze_coin_returns CoinFixtures.analyzers CoinFixtures.bare_env "BTCUSDT"
           None None 500%Z Fixtures.one_doji); try (intros df; reflexivity).
  - reflexivity.
  - reflexivity.
  - discriminate.
Defined.

Lemma format_symbol_twice (sym : string) :
  format_symbol (format_symbol sym) = format_symbol sym.
Proof.
  unfold format_symbol at 1.
  destruct (String.index 0 "/" (format_symbol sym)) eqn:E; [reflexivity|].
  exfalso. unfold format_symbol in E.
  destruct (String.index 0 "/" sym) eqn:E'; [congruence|].
  revert E. apply index_slash_found.
Qed.

(** X18: it makes no difference whether [analyze_coin] is called with the
    exchange symbol or with the already formatted pair. *)
Theorem analyze_coin_formatted_symbol (an : Analyzers) (env : Env) (sym : string)
  (timeframe : option string) (limit : option Z) :
  analyze_coin an env (format_symbol sym) timeframe limit
  = analyze_coin an env sym timeframe limit.
Proof.
  unfold analyze_coin. now rewrite format_symbol_twice.
Qed.

(** ** [main] of [analyzer_test.py] *)

Lemma split_comma_nonempty (s : string) : split_comma s <> [].
Proof.
  destruct s as [|c rest]; simpl; [discriminate|].
  destruct (split_comma rest); [discriminate|].
  destruct (Ascii.eqb c comma); discriminate.
Qed.

Lemma concat_cons_piece (c : Ascii.ascii) (piece : string) (pieces : list string) :
  String.concat "," (String c piece :: pieces)
  = String c (String.concat "," (piece :: pieces)).
Proof. destruct pieces; reflexivity. Qed.

Lemma split_comma_pieces (s : string) :
  String.concat "," (split_comma s) = s
  /\ (forall piece, In piece (split_comma s) ->
        ~ In comma (list_ascii_of_string piece))
  /\ List.length (split_comma s)
     = S (count_occ Ascii.ascii_dec (list_ascii_of_string s) comma).
Proof.
  induction s as [|c rest [IH1 [IH2 IH3]]].
  - repeat split. intros piece [<-|[]] [].
  - pose proof (split_comma_nonempty rest) as N.
    cbn [split_comma list_ascii_of_string count_occ].
    destruct (split_comma rest) as [|piece pieces]; [congruence|].
    destruct (Ascii.eqb c comma) eqn:E.
    + apply Ascii.eqb_eq in E. subst c.
      destruct (Ascii.ascii_dec comma comma) as [_|X]; [|congruence].
      repeat split.
      * change (String.concat "," (EmptyString :: piece :: pieces))
          with (String comma (String.concat "," (piece :: pieces))).
        now rewrite IH1.
      * intros p [<-|I]; [intros [] | now apply IH2].
      * simpl in *. lia.
    + apply Ascii.eqb_neq in E.
      destruct (Ascii.ascii_dec c comma) as [X|_]; [congruence|].
      repeat split.
      * rewrite concat_cons_piece. now rewrite IH1.
      * intros p [<-|I].
        -- simpl. intros [X|X]; [congruence|].
           revert X. apply IH2. now left.
        -- apply IH2. now right.
      * simpl in *. lia.
Qed.

(** X19: splitting the symbol list at its commas loses nothing: joining the
    pieces with commas gives the list back, no piece contains a comma, and
    there is one piece more than there are commas. *)
Theorem split_comma_round_trip (s : string) :
  String.concat "," (split_comma s) = s
  /\ (forall piece, In piece (split_comma s) ->
        ~ In comma (list_ascii_of_string piece))
  /\ List.length (split_comma s)
     = S (count_occ Ascii.ascii_dec (list_ascii_of_string s) comma).
Proof. apply split_comma_pieces. Qed.
